(** * Savana relay server: a shallow embedding of the Express handlers

    The server (src/unnamed/part_000) registers four POST handlers:
    [/api/voice-call], [/api/chat], [/api/create-checkout-session] and
    [/api/stripe-webhook].  Each handler reads fields of the request,
    makes at most one call to a collaborator (the Retell HTTP API through
    [fetch], or the Stripe client) and writes one HTTP response.

    The embedding has three layers:
    - the fragment of JavaScript the handlers use (JSON values, truthiness,
      property reads, optional chaining, [||], [String.prototype.replace],
      template literals);
    - a small monad for handler code: a trace of observable effects
      (console lines, outbound calls, the response) and an exception;
    - the handlers, statement for statement.

    Collaborators whose code is not part of the repository ([fetch], the
    Stripe client, the JavaScript runtime's number printer) are fields of a
    [World] record: the handlers are functions of the world they run in. *)

From Stdlib Require Import String Ascii List Bool Arith Lia.
From Stdlib Require PrimFloat.
Import ListNotations.
Local Open Scope string_scope.
Set Warnings "-register-all".

(** ** JavaScript values *)

(** The values a handler sees: what [JSON.parse] can produce, and
    [undefined] (a missing property).  Numbers are IEEE doubles.  An object
    is the list of its own properties in insertion order; a parsed object
    has each key once. *)
Inductive JsVal : Type :=
| JUndefined
| JNull
| JBool (b : bool)
| JNum (x : PrimFloat.float)
| JStr (s : string)
| JArr (items : list JsVal)
| JObj (props : list (string * JsVal)).

(** A thrown [Error] object: the handlers read nothing of it but
    [message] (and log the object itself). *)
Record JsError : Type := mkError { err_name : string; message : string }.

Definition TypeError (msg : string) : JsError := mkError "TypeError" msg.

Module Js.

(** ToBoolean.  [0], [-0] and [NaN] are the falsy numbers. *)
Definition truthy (v : JsVal) : bool :=
  match v with
  | JUndefined | JNull => false
  | JBool b => b
  | JNum x => negb (PrimFloat.eqb x PrimFloat.zero || negb (PrimFloat.eqb x x))
  | JStr s => negb (String.eqb s "")
  | JArr _ | JObj _ => true
  end.

Definition nullish (v : JsVal) : bool :=
  match v with
  | JUndefined | JNull => true
  | _ => false
  end.

(** [a || b] *)
Definition or_else (a b : JsVal) : JsVal := if truthy a then a else b.

(** [v === 'literal'] *)
Definition strict_eq_str (v : JsVal) (lit : string) : bool :=
  match v with
  | JStr s => String.eqb s lit
  | _ => false
  end.

Fixpoint assoc (k : string) (props : list (string * JsVal)) : JsVal :=
  match props with
  | [] => JUndefined
  | (k', v) :: rest => if String.eqb k k' then v else assoc k rest
  end.

(** [v.k] for the property names the handlers read: data keys, none of
    them [length], an index or a method of a prototype.  Reading a
    property of [undefined] or [null] throws a TypeError; a string, a
    number, a boolean or an array has no such property. *)
Definition get (v : JsVal) (k : string) : JsError + JsVal :=
  match v with
  | JUndefined =>
      inl (TypeError ("Cannot read properties of undefined (reading '" ++ k ++ "')"))
  | JNull =>
      inl (TypeError ("Cannot read properties of null (reading '" ++ k ++ "')"))
  | JObj props => inr (assoc k props)
  | _ => inr JUndefined
  end.

(** [v[0]] on a value that is not [undefined] or [null]. *)
Definition index0 (v : JsVal) : JsVal :=
  match v with
  | JArr (x :: _) => x
  | JStr (String c _) => JStr (String c EmptyString)
  | JObj props => assoc "0" props
  | _ => JUndefined
  end.

(** [v?.k]: [undefined] when [v] is [undefined] or [null]. *)
Definition opt_get (v : JsVal) (k : string) : JsVal :=
  match v with
  | JObj props => assoc k props
  | _ => JUndefined
  end.

(** [v?.[0]] *)
Definition opt_index0 (v : JsVal) : JsVal :=
  if nullish v then JUndefined else index0 v.

(** [s.replace(pat, repl)] with a string pattern: the first occurrence
    of [pat] is replaced.  ([repl] is taken literally: the handlers pass
    the empty string, which has no [$] patterns.) *)
Fixpoint replace (pat repl s : string) : string :=
  if String.prefix pat s
  then repl ++ String.substring (String.length pat)
                                (String.length s - String.length pat) s
  else match s with
       | EmptyString => EmptyString
       | String c s' => String c (replace pat repl s')
       end.

(** Whether an object has the own property [k]. *)
Definition has_own (k : string) (props : list (string * JsVal)) : bool :=
  existsb (fun kv => String.eqb k (fst kv)) props.

(** The string a template literal [`${v}`] splices in (ToString), or the
    TypeError it throws.  [num] is Number::toString, which the runtime
    supplies.  An object is converted through its [toString]: a parsed
    object inherits [Object.prototype.toString], which gives
    "[object Object]", unless it has an own [toString] property; that
    property is never a function, [valueOf] then gives no primitive
    either, and the conversion throws.  An array joins the texts of its
    elements with commas, [undefined] and [null] counting as empty, and
    throws where an element does. *)
Fixpoint to_string (num : PrimFloat.float -> string) (v : JsVal) : JsError + string :=
  match v with
  | JUndefined => inr "undefined"
  | JNull => inr "null"
  | JBool true => inr "true"
  | JBool false => inr "false"
  | JNum x => inr (num x)
  | JStr s => inr s
  | JArr items =>
      (fix join (l : list JsVal) : JsError + string :=
         match l with
         | [] => inr ""
         | x :: l' =>
             match (match x with
                    | JUndefined | JNull => inr ""
                    | _ => to_string num x
                    end) with
             | inl e => inl e
             | inr s =>
                 match l' with
                 | [] => inr s
                 | _ :: _ =>
                     match join l' with
                     | inl e => inl e
                     | inr rest => inr (s ++ "," ++ rest)
                     end
                 end
             end
         end) items
  | JObj props =>
      if has_own "toString" props
      then inl (TypeError "Cannot convert object to primitive value")
      else inr "[object Object]"
  end.

(** The values [to_string] converts: those that hold, at any depth of
    arrays, no object with an own [toString] property. *)
Fixpoint printable (v : JsVal) : bool :=
  match v with
  | JArr items =>
      (fix all (l : list JsVal) : bool :=
         match l with
         | [] => true
         | x :: l' => printable x && all l'
         end) items
  | JObj props => negb (has_own "toString" props)
  | _ => true
  end.

(** An environment variable spliced into a template literal. *)
Definition env_to_string (x : option string) : string :=
  match x with
  | Some s => s
  | None => "undefined"
  end.

(** An environment variable as a value. *)
Definition env_val (x : option string) : JsVal :=
  match x with
  | Some s => JStr s
  | None => JUndefined
  end.

End Js.

(** ** What a handler does: effects and the handler monad *)

Inductive Console : Type := ConsoleLog | ConsoleError.

(** An argument of a console call: a value, or a caught [Error] object. *)
Inductive LogArg : Type :=
| LogVal (v : JsVal)
| LogErr (e : JsError).

(** [res.json(v)] or [res.send(text)].  [v] is the value handed to
    [res.json]; serialising it drops the properties that are
    [undefined]. *)
Inductive ResBody : Type :=
| BodyJson (v : JsVal)
| BodyText (s : string).

(** The second argument of [fetch].  [req_body] is the value handed to
    [JSON.stringify]. *)
Record FetchRequest : Type := mkFetch {
  url : string;
  method : string;
  headers : list (string * string);
  req_body : JsVal
}.

(** A resolved [fetch]: the [ok] flag (status in 200..299) and what
    awaiting [text()] and [json()] gives.  The handlers read one of the
    two, once. *)
Record FetchResponse : Type := mkResponse {
  ok : bool;
  text : JsError + string;
  json : JsError + JsVal
}.

Inductive Effect : Type :=
| Console_ (c : Console) (args : list LogArg)
| Fetch (r : FetchRequest)
| StripeCheckoutCreate (params : JsVal)
| Respond (status : nat) (b : ResBody).

(** A run of handler code: the effects in program order, then either the
    value or the exception that ended it. *)
Definition Prog (A : Type) : Type := list Effect * (JsError + A).

Definition ret {A} (a : A) : Prog A := ([], inr a).

Definition bind {A B} (m : Prog A) (k : A -> Prog B) : Prog B :=
  match m with
  | (t, inl e) => (t, inl e)
  | (t, inr a) => let (t', r) := k a in ((t ++ t')%list, r)
  end.

Definition throw {A} (e : JsError) : Prog A := ([], inl e).

Definition emit (ev : Effect) : Prog unit := ([ev], inr tt).

(** A result or an exception of a collaborator, as a step of the handler. *)
Definition lift {A} (r : JsError + A) : Prog A := ([], r).

(** [try { body } catch (e) { handler }] *)
Definition try_catch {A} (body : Prog A) (handler : JsError -> Prog A) : Prog A :=
  match body with
  | (t, inl e) => let (t', r) := handler e in ((t ++ t')%list, r)
  | (t, inr a) => (t, inr a)
  end.

Declare Scope prog_scope.
Delimit Scope prog_scope with prog.
Notation "x <- m ;; k" := (bind m (fun x => k))
  (at level 61, m at next level, right associativity) : prog_scope.
Notation "m ;; k" := (bind m (fun _ => k))
  (at level 61, right associativity) : prog_scope.
Local Open Scope prog_scope.

Definition trace {A} (m : Prog A) : list Effect := fst m.
Definition outcome {A} (m : Prog A) : JsError + A := snd m.

(** ** The world a handler runs in *)

(** [req.body] as the body parsers leave it: the value [express.json()]
    parsed, or the [Buffer] of [express.raw()].  ([express.json()] is
    registered for every route, [express.raw()] on the webhook route after
    it; the handlers take [req.body] as they find it.) *)
Inductive ReqBody : Type :=
| Parsed (v : JsVal)
| Raw (bytes : list Byte.byte).

Record Request : Type := mkRequest {
  origin : option string;            (* req.headers.origin *)
  stripe_signature : option string;  (* req.headers['stripe-signature'] *)
  body : ReqBody                     (* req.body *)
}.

(** [process.env] *)
Record ProcessEnv : Type := mkEnv {
  RETELL_API_KEY : option string;
  RETELL_PHONE_NUMBER : option string;
  RETELL_AGENT_ID : option string;
  RETELL_LLM_ID : option string;
  STRIPE_WEBHOOK_SECRET : option string
}.

(** The collaborators.  Each handler calls at most one of the first
    three, once; the field gives what that call resolves to or throws.
    [constructEvent] is the Stripe library's
    [stripe.webhooks.constructEvent(payload, header, secret)]: its verdict
    on the request at hand is an input of the handler, and nothing is
    assumed of how the library reaches it. *)
Record World : Type := mkWorld {
  fetch : FetchRequest -> JsError + FetchResponse;
  checkout_sessions_create : JsVal -> JsError + JsVal;
  constructEvent : ReqBody -> option string -> option string -> JsError + JsVal;
  Number_toString : PrimFloat.float -> string
}.

(** ** Statements shared by the handlers *)

(** [console.log(...)] and [console.error(...)] *)
Definition console_log (args : list LogArg) : Prog unit :=
  emit (Console_ ConsoleLog args).
Definition console_error (args : list LogArg) : Prog unit :=
  emit (Console_ ConsoleError args).

(** [res.status(code).json(v)]; [res.json(v)] is [res_json 200 v]. *)
Definition res_json (code : nat) (v : JsVal) : Prog unit :=
  emit (Respond code (BodyJson v)).

(** [res.status(code).send(text)] *)
Definition res_send (code : nat) (s : string) : Prog unit :=
  emit (Respond code (BodyText s)).

(** [await fetch(url, init)] *)
Definition await_fetch (w : World) (r : FetchRequest) : Prog FetchResponse :=
  emit (Fetch r) ;; lift (fetch w r).

(** [await stripe.checkout.sessions.create(params)] *)
Definition await_checkout_create (w : World) (params : JsVal) : Prog JsVal :=
  emit (StripeCheckoutCreate params) ;; lift (checkout_sessions_create w params).

(** The field [k] of [req.body]: a property read, which throws when the
    body is [undefined].  A [Buffer] has none of the fields the handlers
    name. *)
Definition field (b : ReqBody) (k : string) : JsError + JsVal :=
  match b with
  | Parsed v => Js.get v k
  | Raw _ => inr JUndefined
  end.

(** One name of a destructuring [const { k, ... } = req.body]. *)
Definition body_field (b : ReqBody) (k : string) : Prog JsVal := lift (field b k).

(** [v.replace('+', '')]: a method call, so a TypeError unless [v] is a
    string (no other value has a callable [replace]). *)
Definition call_replace_plus (v : JsVal) : Prog JsVal :=
  match v with
  | JStr s => ret (JStr (Js.replace "+" "" s))
  | JUndefined | JNull =>
      throw (TypeError "Cannot read properties of undefined (reading 'replace')")
  | _ => throw (TypeError "userPhone.replace is not a function")
  end.

(** The [headers] of both Retell requests. *)
Definition retell_headers (env : ProcessEnv) : list (string * string) :=
  [ ("Authorization", "Bearer " ++ Js.env_to_string (RETELL_API_KEY env));
    ("Content-Type", "application/json") ].

(** The [catch (error)] block of the three asynchronous handlers differs
    in its label and in the body it sends. *)
Definition internal_error (label : string) (error : JsError) : Prog unit :=
  console_error [LogVal (JStr label); LogErr error] ;;
  res_json 500 (JObj [ ("error", JStr "Internal server error");
                       ("message", JStr (message error)) ]).

(** ** The handlers *)

(** The arguments of the [fetch] of [/api/voice-call]. *)
Definition create_phone_call (env : ProcessEnv) (userPhone userId cleanPhone : JsVal)
  : FetchRequest :=
  mkFetch "https://api.retellai.com/create-phone-call" "POST"
    (retell_headers env)
    (JObj [ ("from_number", Js.env_val (RETELL_PHONE_NUMBER env));
            ("to_number", userPhone);
            ("agent_id", Js.env_val (RETELL_AGENT_ID env));
            ("metadata", JObj [ ("user_id", userId);
                                ("phone", cleanPhone) ]) ]).

(** The arguments of the [fetch] of [/api/chat]. *)
Definition chat_completion (env : ProcessEnv)
  (message userId cleanPhone sessionId : JsVal) : FetchRequest :=
  mkFetch "https://api.retellai.com/chat-completion" "POST"
    (retell_headers env)
    (JObj [ ("llm_id", Js.env_val (RETELL_LLM_ID env));
            ("messages", JArr [ JObj [ ("role", JStr "user");
                                       ("content", message) ] ]);
            ("metadata", JObj [ ("user_id", userId);
                                ("phone", cleanPhone);
                                ("session_id", sessionId) ]) ]).

(** [app.post('/api/voice-call', ...)] *)
Definition voice_call (w : World) (env : ProcessEnv) (req : Request) : Prog unit :=
  try_catch
    (userPhone <- body_field (body req) "userPhone" ;;
     userId <- body_field (body req) "userId" ;;
     if negb (Js.truthy userPhone) then
       res_json 400 (JObj [ ("error", JStr "User phone number is required") ])
     else
       (cleanPhone <- call_replace_plus userPhone ;;
        retellResponse <-
          await_fetch w (create_phone_call env userPhone userId cleanPhone) ;;
        if negb (ok retellResponse) then
          (errorData <- lift (text retellResponse) ;;
           console_error [LogVal (JStr "Retell API error:"); LogVal (JStr errorData)] ;;
           res_json 500 (JObj [ ("error", JStr "Failed to initiate call with Retell AI");
                                ("details", JStr errorData) ]))
        else
          (callData <- lift (json retellResponse) ;;
           call_id <- lift (Js.get callData "call_id") ;;
           res_json 200 (JObj [ ("success", JBool true);
                                ("callId", call_id);
                                ("message", JStr "Voice call initiated successfully") ]))))
    (internal_error "Voice call error:").

Definition chat_fallback : string :=
  "I apologize, but I couldn't process your message. Please try again.".

(** [chatData.choices?.[0]?.message?.content]; only the first read can
    throw. *)
Definition first_choice_content (chatData : JsVal) : JsError + JsVal :=
  match Js.get chatData "choices" with
  | inl e => inl e
  | inr choices =>
      inr (Js.opt_get (Js.opt_get (Js.opt_index0 choices) "message") "content")
  end.

(** [app.post('/api/chat', ...)] *)
Definition chat (w : World) (env : ProcessEnv) (req : Request) : Prog unit :=
  try_catch
    (message <- body_field (body req) "message" ;;
     userPhone <- body_field (body req) "userPhone" ;;
     userId <- body_field (body req) "userId" ;;
     sessionId <- body_field (body req) "sessionId" ;;
     if negb (Js.truthy message) || negb (Js.truthy userPhone) then
       res_json 400 (JObj [ ("error", JStr "Message and user phone are required") ])
     else
       (cleanPhone <- call_replace_plus userPhone ;;
        retellResponse <-
          await_fetch w (chat_completion env message userId cleanPhone sessionId) ;;
        if negb (ok retellResponse) then
          (errorData <- lift (text retellResponse) ;;
           console_error [LogVal (JStr "Retell Chat API error:"); LogVal (JStr errorData)] ;;
           res_json 500 (JObj [ ("error", JStr "Failed to get response from Savana");
                                ("details", JStr errorData) ]))
        else
          (chatData <- lift (json retellResponse) ;;
           content <- lift (first_choice_content chatData) ;;
           session_id <- lift (Js.get chatData "session_id") ;;
           res_json 200 (JObj [ ("success", JBool true);
                                ("response", Js.or_else content (JStr chat_fallback));
                                ("sessionId", session_id) ]))))
    (internal_error "Chat error:").

(** [app.post('/api/create-checkout-session', ...)] *)
Definition create_checkout_session (w : World) (env : ProcessEnv) (req : Request)
  : Prog unit :=
  try_catch
    (priceId <- body_field (body req) "priceId" ;;
     userId <- body_field (body req) "userId" ;;
     userEmail <- body_field (body req) "userEmail" ;;
     planName <- body_field (body req) "planName" ;;
     session <-
       await_checkout_create w
         (JObj [ ("payment_method_types", JArr [ JStr "card" ]);
                 ("line_items", JArr [ JObj [ ("price", priceId);
                                              ("quantity", JNum PrimFloat.one) ] ]);
                 ("mode", JStr "subscription");
                 ("success_url",
                  JStr (Js.env_to_string (origin req)
                        ++ "/dashboard?session_id={CHECKOUT_SESSION_ID}"));
                 ("cancel_url", JStr (Js.env_to_string (origin req) ++ "/subscribe"));
                 ("customer_email", userEmail);
                 ("metadata", JObj [ ("userId", userId);
                                     ("planName", planName) ]) ]) ;;
     session_id <- lift (Js.get session "id") ;;
     res_json 200 (JObj [ ("sessionId", session_id) ]))
    (fun error =>
       console_error [LogVal (JStr "Stripe session creation error:"); LogErr error] ;;
       res_json 500 (JObj [ ("error", JStr (message error)) ])).

(** The [switch (event.type)] statement of the webhook handler. *)
Definition switch_event_type (w : World) (event : JsVal) : Prog unit :=
  event_type <- lift (Js.get event "type") ;;
  if Js.strict_eq_str event_type "checkout.session.completed" then
    (data <- lift (Js.get event "data") ;;
     session <- lift (Js.get data "object") ;;
     console_log [LogVal (JStr "Payment successful:"); LogVal session])
  else if Js.strict_eq_str event_type "invoice.payment_succeeded" then
    console_log [LogVal (JStr "Subscription payment succeeded")]
  else if Js.strict_eq_str event_type "customer.subscription.deleted" then
    console_log [LogVal (JStr "Subscription cancelled")]
  else
    (text <- lift (Js.to_string (Number_toString w) event_type) ;;
     console_log [LogVal (JStr ("Unhandled event type " ++ text))]).

Definition received : JsVal := JObj [ ("received", JBool true) ].

(** [app.post('/api/stripe-webhook', express.raw(...), ...)].  The
    [catch] block returns from the handler; [None] stands for that
    return. *)
Definition stripe_webhook (w : World) (env : ProcessEnv) (req : Request) : Prog unit :=
  let sig := stripe_signature req in
  verified <-
    try_catch
      (event <- lift (constructEvent w (body req) sig (STRIPE_WEBHOOK_SECRET env)) ;;
       ret (Some event))
      (fun err =>
         console_log [LogVal (JStr "Webhook signature verification failed.");
                      LogVal (JStr (message err))] ;;
         res_send 400 ("Webhook Error: " ++ message err) ;;
         ret None) ;;
  match verified with
  | None => ret tt
  | Some event =>
      switch_event_type w event ;;
      res_json 200 received
  end.

(** ** Reading a run *)

(** The HTTP responses a run writes, in order. *)
Fixpoint responses (t : list Effect) : list (nat * ResBody) :=
  match t with
  | [] => []
  | Respond code b :: t' => (code, b) :: responses t'
  | _ :: t' => responses t'
  end.

(** The calls a run makes to a provider (Retell or Stripe's API). *)
Definition is_outbound (e : Effect) : bool :=
  match e with
  | Fetch _ | StripeCheckoutCreate _ => true
  | _ => false
  end.

Definition outbound_calls (t : list Effect) : list Effect := filter is_outbound t.

(** The console lines of a run. *)
Fixpoint console_lines (t : list Effect) : list (list LogArg) :=
  match t with
  | [] => []
  | Console_ _ args :: t' => args :: console_lines t'
  | _ :: t' => console_lines t'
  end.





(** The event types the webhook's [switch] names. *)
Definition known_event_types : list string :=
  [ "checkout.session.completed";
    "invoice.payment_succeeded";
    "customer.subscription.deleted" ].

(** Two environments that agree on every variable but the webhook
    signing secret. *)
Definition same_but_webhook_secret (env env' : ProcessEnv) : Prop :=
  RETELL_API_KEY env = RETELL_API_KEY env' /\
  RETELL_PHONE_NUMBER env = RETELL_PHONE_NUMBER env' /\
  RETELL_AGENT_ID env = RETELL_AGENT_ID env' /\
  RETELL_LLM_ID env = RETELL_LLM_ID env'.

(** ** The phone number sent to Retell, in the words of the comment
    "Remove the + sign from phone number" *)

(** The string without its first ['+']; the rest is kept as it is. *)
Fixpoint strip_first_plus (s : string) : string :=
  match s with
  | EmptyString => EmptyString
  | String c s' => if Ascii.eqb c "+" then s' else String c (strip_first_plus s')
  end.

Fixpoint count_plus (s : string) : nat :=
  match s with
  | EmptyString => 0
  | String c s' => (if Ascii.eqb c "+" then 1 else 0) + count_plus s'
  end.

(** The run of the [catch] block of [/api/voice-call] and of
    [/api/chat] when the exception [e] comes after the [fetch] [q]. *)
Definition caught_after_fetch (q : FetchRequest) (label : string) (e : JsError)
  : Prog unit :=
  ([ Fetch q;
     Console_ ConsoleError [ LogVal (JStr label); LogErr e ];
     Respond 500 (BodyJson (JObj [ ("error", JStr "Internal server error");
                                   ("message", JStr (message e)) ])) ],
   inr tt).

(** ** Sample worlds and requests *)

Module Sample.

Definition env : ProcessEnv :=
  mkEnv (Some "key_1") (Some "+15550100") (Some "agent_1") (Some "llm_1")
        (Some "whsec_1").

Definition env_other_secret : ProcessEnv :=
  mkEnv (Some "key_1") (Some "+15550100") (Some "agent_1") (Some "llm_1")
        (Some "whsec_2").

(** A world whose collaborators answer every call the same way. *)
Definition world (f : JsError + FetchResponse) (c v : JsError + JsVal) : World :=
  mkWorld (fun _ => f) (fun _ => c) (fun _ _ _ => v) (fun _ => "NaN").

Definition network_down : JsError := mkError "TypeError" "fetch failed".

Definition bad_signature : JsError :=
  mkError "StripeSignatureVerificationError"
          "No signatures found matching the expected signature for payload.".

Definition missing_price : JsError :=
  mkError "StripeInvalidRequestError" "Missing required param: line_items[0][price].".

Definition upstream_401 : FetchResponse :=
  mkResponse false (inr "Unauthorized") (inr JNull).

Definition json_request (v : JsVal) : Request :=
  mkRequest (Some "http://localhost:5173") None (Parsed v).

Definition voice_body : JsVal :=
  JObj [ ("userPhone", JStr "+15550123"); ("userId", JStr "u1") ].

Definition chat_body : JsVal :=
  JObj [ ("message", JStr "hello"); ("userPhone", JStr "+15550123");
         ("userId", JStr "u1"); ("sessionId", JStr "s1") ].

(** A phone number with two ['+']. *)
Definition two_plus_body : JsVal :=
  JObj [ ("userPhone", JStr "+1+555") ].

Definition webhook_request : Request :=
  mkRequest None (Some "t=1,v1=00") (Raw [Byte.x7b; Byte.x7d]).

Definition env_third_secret : ProcessEnv :=
  mkEnv (Some "key_1") (Some "+15550100") (Some "agent_1") (Some "llm_1")
        (Some "whsec_3").

(** A verifier that accepts the signature of [webhook_request] under the
    secret of [env] and under no other. *)
Definition checking_verifier (event : JsVal)
  (b : ReqBody) (sig secret : option string) : JsError + JsVal :=
  match sig, secret with
  | Some sg, Some sc =>
      if String.eqb sg "t=1,v1=00" && String.eqb sc "whsec_1"
      then inr event
      else inl bad_signature
  | _, _ => inl bad_signature
  end.

Definition checking_world (event : JsVal) : World :=
  mkWorld (fun _ => inl network_down) (fun _ => inl network_down)
          (checking_verifier event) (fun _ => "NaN").

(** A chat completion whose content is a list of parts, not a string. *)
Definition parts : JsVal :=
  JArr [ JObj [ ("type", JStr "text"); ("text", JStr "hi") ] ].

Definition completion_with_parts : FetchResponse :=
  mkResponse true (inr "")
    (inr (JObj [ ("choices", JArr [ JObj [ ("message",
                                           JObj [ ("content", parts) ]) ] ]);
                 ("session_id", JStr "s1") ])).

Definition completion_with_text : FetchResponse :=
  mkResponse true (inr "")
    (inr (JObj [ ("choices", JArr [ JObj [ ("message",
                                           JObj [ ("content", JStr "Hello") ]) ] ]);
                 ("session_id", JStr "s1") ])).


Definition unknown_event : JsVal :=
  JObj [ ("type", JStr "customer.created");
         ("data", JObj [ ("object", JObj []) ]) ].

End Sample.

(** * Facts *)

(** ** The JavaScript fragment *)

Lemma substring_whole (s : string) :
  String.substring 0 (String.length s) s = s.
Proof.
  induction s as [|c s IH]; simpl.
  - reflexivity.
  - now rewrite IH.
Qed.

Lemma replace_plus_cons (c : ascii) (s : string) :
  Js.replace "+" "" (String c s)
  = if Ascii.eqb c "+" then s else String c (Js.replace "+" "" s).
Proof.
  cbn [Js.replace String.prefix String.length].
  destruct (ascii_dec "+" c) as [<-|Hne].
  - rewrite Ascii.eqb_refl. destruct s as [|d s]; cbn.
    + reflexivity.
    + now rewrite substring_whole.
  - destruct (Ascii.eqb_spec c "+") as [->|_].
    + now elim Hne.
    + reflexivity.
Qed.

(** [replace('+', '')] is the function the source's comment describes. *)
Lemma replace_plus_strip (s : string) :
  Js.replace "+" "" s = strip_first_plus s.
Proof.
  induction s as [|c s IH].
  - reflexivity.
  - rewrite replace_plus_cons. cbn [strip_first_plus].
    destruct (Ascii.eqb c "+"); [reflexivity | now rewrite IH].
Qed.

Lemma strip_no_plus (s : string) :
  count_plus s = 0 -> strip_first_plus s = s.
Proof.
  induction s as [|c s IH]; cbn; [reflexivity|].
  destruct (Ascii.eqb c "+"); [discriminate|].
  intros H. now rewrite IH.
Qed.

Lemma strip_first_occurrence (a b : string) :
  count_plus a = 0 -> strip_first_plus (a ++ String "+" b) = a ++ b.
Proof.
  induction a as [|c a IH]; cbn.
  - reflexivity.
  - destruct (Ascii.eqb c "+"); [discriminate|].
    intros H. now rewrite IH.
Qed.

Lemma count_plus_strip (s : string) :
  count_plus (strip_first_plus s) = pred (count_plus s).
Proof.
  induction s as [|c s IH]; cbn; [reflexivity|].
  destruct (Ascii.eqb c "+") eqn:E; cbn.
  - reflexivity.
  - now rewrite E.
Qed.

Lemma truthy_str (s : string) : Js.truthy (JStr s) = true <-> s <> "".
Proof.
  cbn. destruct (String.eqb_spec s "") as [->|Hne]; cbn; split; intros H.
  - discriminate.
  - now elim H.
  - exact Hne.
  - reflexivity.
Qed.

Lemma or_else_truthy (a b : JsVal) :
  Js.truthy b = true -> Js.truthy (Js.or_else a b) = true.
Proof.
  intros Hb. unfold Js.or_else. destruct (Js.truthy a) eqn:Ha; assumption.
Qed.

(** [v === 'lit'] holds exactly when [v] is the string [lit]. *)
Lemma strict_eq_str_iff (v : JsVal) (lit : string) :
  Js.strict_eq_str v lit = true <-> v = JStr lit.
Proof.
  destruct v; cbn; try (split; [discriminate | discriminate]).
  rewrite String.eqb_eq. split; [now intros -> | now intros [= ->]].
Qed.

(** ** The handler monad *)

Section ProgFacts.

Context {A B : Type}.

Lemma bind_ret (a : A) (k : A -> Prog B) : bind (ret a) k = k a.
Proof. unfold bind, ret. destruct (k a) as [t r]. reflexivity. Qed.

Lemma bind_lift_inr (a : A) (k : A -> Prog B) : bind (lift (inr a)) k = k a.
Proof. exact (bind_ret a k). Qed.

End ProgFacts.

(** ** The webhook handler *)

(** The run of the webhook handler on a request that fails
    verification: the [catch] block and nothing else. *)
Lemma stripe_webhook_rejected (w : World) (env : ProcessEnv) (req : Request)
  (err : JsError) :
  constructEvent w (body req) (stripe_signature req) (STRIPE_WEBHOOK_SECRET env)
  = inl err ->
  stripe_webhook w env req
  = ([ Console_ ConsoleLog [ LogVal (JStr "Webhook signature verification failed.");
                             LogVal (JStr (message err)) ];
       Respond 400 (BodyText ("Webhook Error: " ++ message err)) ],
     inr tt).
Proof.
  intros H. unfold stripe_webhook. rewrite H. reflexivity.
Qed.

(** The run on a request that verifies: the [switch], then the
    acknowledgement if the [switch] did not throw. *)
Lemma stripe_webhook_verified (w : World) (env : ProcessEnv) (req : Request)
  (event : JsVal) :
  constructEvent w (body req) (stripe_signature req) (STRIPE_WEBHOOK_SECRET env)
  = inr event ->
  stripe_webhook w env req
  = bind (switch_event_type w event) (fun _ => res_json 200 received).
Proof.
  intros H. unfold stripe_webhook. rewrite H.
  cbv beta iota delta [try_catch lift bind ret].
  destruct (switch_event_type w event) as [t [e|[]]]; reflexivity.
Qed.

(** C1. When [constructEvent] throws, whatever the reason, the webhook
    handler logs the reason, answers HTTP 400 with the text
    "Webhook Error: <reason>" and returns: no branch of the [switch] runs
    (the verification line is the only console line) and no
    acknowledgement [{received: true}] is sent (the 400 is the only
    response). *)
Theorem webhook_verification_failure_is_400 (w : World) (env : ProcessEnv)
  (req : Request) (err : JsError) :
  constructEvent w (body req) (stripe_signature req) (STRIPE_WEBHOOK_SECRET env)
  = inl err ->
  responses (trace (stripe_webhook w env req))
  = [ (400, BodyText ("Webhook Error: " ++ message err)) ]
  /\ console_lines (trace (stripe_webhook w env req))
     = [ [ LogVal (JStr "Webhook signature verification failed.");
           LogVal (JStr (message err)) ] ]
  /\ ~ In (Respond 200 (BodyJson received)) (trace (stripe_webhook w env req))
  /\ outcome (stripe_webhook w env req) = inr tt.
Proof.
  intros H. rewrite (stripe_webhook_rejected w env req err H). cbn.
  repeat split.
  intros [E|[E|[]]]; discriminate.
Qed.

Lemma webhook_verification_failure_is_400_witness :
  let w := Sample.world (inl Sample.network_down) (inl Sample.network_down)
                        (inl Sample.bad_signature) in
  constructEvent w (body Sample.webhook_request)
                 (stripe_signature Sample.webhook_request)
                 (STRIPE_WEBHOOK_SECRET Sample.env)
  = inl Sample.bad_signature
  /\ responses (trace (stripe_webhook w Sample.env Sample.webhook_request))
     = [ (400, BodyText "Webhook Error: No signatures found matching the expected signature for payload.") ].
Proof.
  intros w. split.
  - reflexivity.
  - apply (webhook_verification_failure_is_400 w Sample.env Sample.webhook_request
             Sample.bad_signature). reflexivity.
Defined.

(** [to_string] succeeds exactly on the printable values, and what it
    throws is a TypeError. *)
Lemma to_string_spec (num : PrimFloat.float -> string) :
  forall v : JsVal,
    (Js.printable v = true /\ exists s, Js.to_string num v = inr s)
    \/ (Js.printable v = false /\ exists m, Js.to_string num v = inl (TypeError m)).
Proof.
  fix IH 1. intros [| |b|x|s|items|props].
  - left. split; [reflexivity | eexists; reflexivity].
  - left. split; [reflexivity | eexists; reflexivity].
  - left. split; [reflexivity | destruct b; eexists; reflexivity].
  - left. split; [reflexivity | eexists; reflexivity].
  - left. split; [reflexivity | eexists; reflexivity].
  - cbn [Js.printable Js.to_string].
    induction items as [|x l IHl].
    + left. split; [reflexivity | eexists; reflexivity].
    + destruct (IH x) as [[Hp [s Hs]]|[Hp [m Hm]]].
      * rewrite Hp. cbn [andb].
        assert (Hx : exists s', match x with
                                | JUndefined | JNull => inr ""
                                | _ => Js.to_string num x
                                end = inr s')
          by (destruct x; eexists; first [reflexivity | exact Hs]).
        destruct Hx as [s' ->].
        destruct IHl as [[Hl [rest Hrest]]|[Hl [m Hm]]].
        -- left. split; [exact Hl|]. rewrite Hrest.
           destruct l; eexists; reflexivity.
        -- right. split; [exact Hl|]. rewrite Hm.
           destruct l; [discriminate Hl | eexists; reflexivity].
      * right. rewrite Hp. cbn [andb]. split; [reflexivity|].
        destruct x; try discriminate Hp; rewrite Hm; eexists; reflexivity.
  - cbn [Js.printable Js.to_string]. destruct (Js.has_own "toString" props).
    + right. split; [reflexivity | eexists; reflexivity].
    + left. split; [reflexivity | eexists; reflexivity].
Qed.

Lemma to_string_throws_iff (num : PrimFloat.float -> string) (v : JsVal) :
  (exists e, Js.to_string num v = inl e) <-> Js.printable v = false.
Proof.
  destruct (to_string_spec num v) as [[Hp [s Hs]]|[Hp [m Hm]]]; rewrite Hp.
  - split; [intros [e He]; congruence | discriminate].
  - split; [reflexivity | intros _; eexists; exact Hm].
Qed.

Lemma not_known_literal (v : JsVal) :
  (forall lit, In lit known_event_types -> v <> JStr lit) ->
  Js.strict_eq_str v "checkout.session.completed" = false
  /\ Js.strict_eq_str v "invoice.payment_succeeded" = false
  /\ Js.strict_eq_str v "customer.subscription.deleted" = false.
Proof.
  intros Hunknown.
  assert (Hlit : forall lit, In lit known_event_types ->
                             Js.strict_eq_str v lit = false).
  { intros lit Hin. destruct (Js.strict_eq_str v lit) eqn:E; [|reflexivity].
    apply strict_eq_str_iff in E. now elim (Hunknown lit Hin). }
  repeat split; apply Hlit; cbn; tauto.
Qed.

(** The [default:] branch: the value of [event.type] is none of the three
    literals and converts to the text [text]. *)
Lemma switch_default (w : World) (event event_type : JsVal) (text : string) :
  Js.get event "type" = inr event_type ->
  (forall lit, In lit known_event_types -> event_type <> JStr lit) ->
  Js.to_string (Number_toString w) event_type = inr text ->
  switch_event_type w event
  = ([ Console_ ConsoleLog [ LogVal (JStr ("Unhandled event type " ++ text)) ] ],
     inr tt).
Proof.
  intros Hty Hunknown Htext. unfold switch_event_type. rewrite Hty, bind_lift_inr.
  destruct (not_known_literal event_type Hunknown) as (-> & -> & ->).
  rewrite Htext, bind_lift_inr. reflexivity.
Qed.

(** The [switch] throws exactly when reading [event.type] or
    [event.data.object] does, or when the [default:] branch cannot
    convert [event.type] to text: on an event that is [null], on a
    [checkout.session.completed] event whose [data] is missing or [null],
    and on an event whose [type] is none of the three literals and holds
    an object with an own [toString] property. *)
Lemma switch_throws_iff (w : World) (event : JsVal) :
  (exists e, outcome (switch_event_type w event) = inl e)
  <-> Js.nullish event = true
      \/ (Js.opt_get event "type" = JStr "checkout.session.completed"
          /\ Js.nullish (Js.opt_get event "data") = true)
      \/ ((forall lit, In lit known_event_types -> Js.opt_get event "type" <> JStr lit)
          /\ Js.printable (Js.opt_get event "type") = false).
Proof.
  unfold switch_event_type.
  destruct event as [| |b|x|s|items|props];
    try (cbn; split; [intros _; now left | intros _; eexists; reflexivity]);
    try (cbn; split; [intros [e He]; discriminate
                     | intros [H|[[H _]|[_ H]]]; discriminate]).
  cbn [Js.get Js.opt_get Js.nullish]. rewrite bind_lift_inr.
  set (ty := Js.assoc "type" props).
  destruct (Js.strict_eq_str ty "checkout.session.completed") eqn:E1.
  - apply strict_eq_str_iff in E1. rewrite E1.
    destruct (Js.assoc "data" props) as [| |b|x|s|items|props'];
      cbn; split;
      try (intros _; right; left; split; reflexivity);
      try (intros _; eexists; reflexivity);
      try (intros [e He]; discriminate);
      try (intros [H|[[_ H]|[H _]]];
           [ discriminate H | discriminate H
           | exfalso; apply (H "checkout.session.completed"); [left|]; reflexivity ]).
  - assert (Hne : ty <> JStr "checkout.session.completed").
    { intros H. apply strict_eq_str_iff in H. congruence. }
    destruct (Js.strict_eq_str ty "invoice.payment_succeeded") eqn:E2.
    { apply strict_eq_str_iff in E2. cbn. split.
      - intros [e He]. discriminate.
      - intros [H|[[H _]|[H _]]]; [discriminate | now elim Hne |].
        exfalso. apply (H "invoice.payment_succeeded"); [right; left; reflexivity | exact E2]. }
    destruct (Js.strict_eq_str ty "customer.subscription.deleted") eqn:E3.
    { apply strict_eq_str_iff in E3. cbn. split.
      - intros [e He]. discriminate.
      - intros [H|[[H _]|[H _]]]; [discriminate | now elim Hne |].
        exfalso. apply (H "customer.subscription.deleted");
          [right; right; left; reflexivity | exact E3]. }
    assert (Hunknown : forall lit, In lit known_event_types -> ty <> JStr lit).
    { intros lit [<-|[<-|[<-|[]]]] H; apply strict_eq_str_iff in H; congruence. }
    destruct (to_string_spec (Number_toString w) ty) as [[Hp [text Ht]]|[Hp [m Hm]]].
    + rewrite Ht. cbn. split.
      * intros [e He]. discriminate.
      * intros [H|[[H _]|[_ H]]]; [discriminate | now elim Hne | congruence].
    + rewrite Hm. cbn. split.
      * intros _. right. right. split; assumption.
      * intros _. eexists. reflexivity.
Qed.

(** C5. A verified event whose [type] is a tag other than the three known
    ones takes the [default:] branch: the handler logs
    "Unhandled event type <tag>", nothing throws, and it answers HTTP 200
    with body [{received: true}]; that is the whole run. *)
Theorem webhook_unknown_type_acknowledged (w : World) (env : ProcessEnv)
  (req : Request) (event : JsVal) (tag : string) :
  constructEvent w (body req) (stripe_signature req) (STRIPE_WEBHOOK_SECRET env)
  = inr event ->
  Js.get event "type" = inr (JStr tag) ->
  ~ In tag known_event_types ->
  stripe_webhook w env req
  = ([ Console_ ConsoleLog [ LogVal (JStr ("Unhandled event type " ++ tag)) ];
       Respond 200 (BodyJson (JObj [ ("received", JBool true) ])) ],
     inr tt).
Proof.
  intros Hok Hty Hunknown.
  rewrite (stripe_webhook_verified w env req event Hok).
  rewrite (switch_default w event (JStr tag) tag Hty); try reflexivity.
  intros lit Hin [= ->]. now elim Hunknown.
Qed.

Lemma webhook_unknown_type_acknowledged_witness :
  let w := Sample.checking_world Sample.unknown_event in
  Js.get Sample.unknown_event "type" = inr (JStr "customer.created")
  /\ stripe_webhook w Sample.env Sample.webhook_request
     = ([ Console_ ConsoleLog [ LogVal (JStr "Unhandled event type customer.created") ];
          Respond 200 (BodyJson (JObj [ ("received", JBool true) ])) ],
        inr tt).
Proof.
  intros w. split; [reflexivity|].
  apply (webhook_unknown_type_acknowledged w Sample.env Sample.webhook_request
           Sample.unknown_event "customer.created").
  - reflexivity.
  - reflexivity.
  - intros [H|[H|[H|[]]]]; discriminate.
Defined.



(** ** The relay handlers *)

(** A body that has one field (possibly [undefined]) has them all: only
    reading from [undefined] or [null] throws. *)
Lemma field_defined (b : ReqBody) (k k' : string) (v : JsVal) :
  field b k = inr v -> exists v', field b k' = inr v'.
Proof.
  destruct b as [[| |x|x|s|items|props]|bytes]; cbn; intros H;
    try discriminate; eexists; reflexivity.
Qed.

Lemma await_fetch_resolved (w : World) (q : FetchRequest) (r : FetchResponse) :
  fetch w q = inr r -> await_fetch w q = ([Fetch q], inr r).
Proof. intros H. unfold await_fetch. cbn. now rewrite H. Qed.

(** Steps of a run whose collaborators' answers are known. *)
Ltac run_step :=
  first [ rewrite bind_lift_inr
        | rewrite bind_ret
        | progress cbv beta iota delta [body_field] ].

(** [/api/voice-call] without a phone number: the guard answers 400
    before anything else happens. *)
Lemma voice_call_requires_phone (w : World) (env : ProcessEnv) (req : Request)
  (userPhone : JsVal) :
  field (body req) "userPhone" = inr userPhone ->
  Js.truthy userPhone = false ->
  voice_call w env req
  = ([ Respond 400 (BodyJson (JObj [ ("error", JStr "User phone number is required") ])) ],
     inr tt).
Proof.
  intros Hphone Hfalsy.
  destruct (field_defined _ _ "userId" _ Hphone) as [userId Hid].
  unfold voice_call. repeat run_step. rewrite Hphone. run_step.
  rewrite Hid. run_step. rewrite Hfalsy. reflexivity.
Qed.

(** [/api/chat] without a message or without a phone number. *)
Lemma chat_requires_message_and_phone (w : World) (env : ProcessEnv) (req : Request)
  (message userPhone : JsVal) :
  field (body req) "message" = inr message ->
  field (body req) "userPhone" = inr userPhone ->
  Js.truthy message = false \/ Js.truthy userPhone = false ->
  chat w env req
  = ([ Respond 400 (BodyJson (JObj [ ("error", JStr "Message and user phone are required") ])) ],
     inr tt).
Proof.
  intros Hmsg Hphone Hfalsy.
  destruct (field_defined _ _ "userId" _ Hphone) as [userId Hid].
  destruct (field_defined _ _ "sessionId" _ Hphone) as [sessionId Hsid].
  unfold chat. repeat run_step. rewrite Hmsg. run_step.
  rewrite Hphone. run_step. rewrite Hid. run_step. rewrite Hsid. run_step.
  replace (negb (Js.truthy message) || negb (Js.truthy userPhone)) with true.
  - reflexivity.
  - destruct Hfalsy as [-> | ->]; cbn; [reflexivity | now rewrite orb_true_r].
Qed.

(** Case analysis on what the collaborators answered. *)
Ltac split_run :=
  repeat match goal with
    | |- context [match ?x with inl _ => _ | inr _ => _ end] => destruct x eqn:?
    | |- context [if ?b then _ else _] => destruct b eqn:?
    end.

Ltac unfold_run := cbv beta iota delta [bind emit lift ret throw try_catch app].

(** Past the guard, [/api/voice-call] starts with the call to Retell and
    makes no other call. *)
Lemma voice_call_past_guard (w : World) (env : ProcessEnv) (req : Request)
  (p : string) (userId : JsVal) :
  field (body req) "userPhone" = inr (JStr p) ->
  field (body req) "userId" = inr userId ->
  p <> "" ->
  let q := create_phone_call env (JStr p) userId (JStr (Js.replace "+" "" p)) in
  exists t, trace (voice_call w env req) = Fetch q :: t
            /\ outbound_calls (Fetch q :: t) = [Fetch q].
Proof.
  intros Hphone Hid Hp q.
  apply truthy_str in Hp.
  unfold voice_call. repeat run_step. rewrite Hphone. run_step.
  rewrite Hid. run_step. rewrite Hp. cbn [negb call_replace_plus]. run_step.
  fold q. unfold await_fetch. unfold_run.
  split_run; cbn; eexists; split; reflexivity.
Qed.

Lemma chat_past_guard (w : World) (env : ProcessEnv) (req : Request)
  (p : string) (message userId sessionId : JsVal) :
  field (body req) "message" = inr message ->
  field (body req) "userPhone" = inr (JStr p) ->
  field (body req) "userId" = inr userId ->
  field (body req) "sessionId" = inr sessionId ->
  Js.truthy message = true ->
  p <> "" ->
  let q := chat_completion env message userId (JStr (Js.replace "+" "" p)) sessionId in
  exists t, trace (chat w env req) = Fetch q :: t
            /\ outbound_calls (Fetch q :: t) = [Fetch q].
Proof.
  intros Hmsg Hphone Hid Hsid Hm Hp q.
  apply truthy_str in Hp.
  unfold chat. repeat run_step. rewrite Hmsg. run_step. rewrite Hphone. run_step.
  rewrite Hid. run_step. rewrite Hsid. run_step. rewrite Hm, Hp.
  cbn [negb orb call_replace_plus]. run_step.
  fold q. unfold await_fetch, first_choice_content. unfold_run.
  split_run; cbn; eexists; split; reflexivity.
Qed.

(** The run of [/api/voice-call] when Retell answers with a status
    outside 200..299 and the body text [d]. *)
Lemma voice_call_upstream_failure (w : World) (env : ProcessEnv) (req : Request)
  (p : string) (r : FetchResponse) (d : string) :
  field (body req) "userPhone" = inr (JStr p) ->
  p <> "" ->
  (forall q, In (Fetch q) (trace (voice_call w env req)) -> fetch w q = inr r) ->
  ok r = false ->
  text r = inr d ->
  exists q,
    voice_call w env req
    = ([ Fetch q;
         Console_ ConsoleError [ LogVal (JStr "Retell API error:"); LogVal (JStr d) ];
         Respond 500 (BodyJson (JObj [ ("error", JStr "Failed to initiate call with Retell AI");
                                       ("details", JStr d) ])) ],
       inr tt).
Proof.
  intros Hphone Hp Hfetch Hok Htext.
  destruct (field_defined _ _ "userId" _ Hphone) as [userId Hid].
  destruct (voice_call_past_guard w env req p userId Hphone Hid Hp) as (t & Ht & _).
  specialize (Hfetch _ ltac:(rewrite Ht; left; reflexivity)).
  eexists. apply truthy_str in Hp.
  unfold voice_call. repeat run_step. rewrite Hphone. run_step.
  rewrite Hid. run_step. rewrite Hp. cbn [negb call_replace_plus]. run_step.
  rewrite (await_fetch_resolved _ _ _ Hfetch). unfold_run.
  rewrite Hok, Htext. reflexivity.
Qed.

Lemma chat_upstream_failure (w : World) (env : ProcessEnv) (req : Request)
  (message : JsVal) (p : string) (r : FetchResponse) (d : string) :
  field (body req) "message" = inr message ->
  Js.truthy message = true ->
  field (body req) "userPhone" = inr (JStr p) ->
  p <> "" ->
  (forall q, In (Fetch q) (trace (chat w env req)) -> fetch w q = inr r) ->
  ok r = false ->
  text r = inr d ->
  exists q,
    chat w env req
    = ([ Fetch q;
         Console_ ConsoleError [ LogVal (JStr "Retell Chat API error:");
                                 LogVal (JStr d) ];
         Respond 500 (BodyJson (JObj [ ("error", JStr "Failed to get response from Savana");
                                       ("details", JStr d) ])) ],
       inr tt).
Proof.
  intros Hmsg Hm Hphone Hp Hfetch Hok Htext.
  destruct (field_defined _ _ "userId" _ Hphone) as [userId Hid].
  destruct (field_defined _ _ "sessionId" _ Hphone) as [sessionId Hsid].
  destruct (chat_past_guard w env req p message userId sessionId
              Hmsg Hphone Hid Hsid Hm Hp) as (t & Ht & _).
  specialize (Hfetch _ ltac:(rewrite Ht; left; reflexivity)).
  eexists. apply truthy_str in Hp.
  unfold chat. repeat run_step. rewrite Hmsg. run_step. rewrite Hphone. run_step.
  rewrite Hid. run_step. rewrite Hsid. run_step. rewrite Hm, Hp.
  cbn [negb orb call_replace_plus]. run_step.
  rewrite (await_fetch_resolved _ _ _ Hfetch). unfold_run.
  rewrite Hok, Htext. reflexivity.
Qed.

(** C6. On [/api/voice-call] and on [/api/chat], when the required fields
    are present (a non-empty string [userPhone]; for chat also a truthy
    [message]) and the call to Retell resolves with a status outside
    200..299 whose body text is [d], the one response is HTTP 500 with a
    JSON body that has an [error] field and [d] under [details]. *)
Theorem retell_failure_surfaces_details (w : World) (env : ProcessEnv)
  (req : Request) (p : string) (r : FetchResponse) (d : string) :
  field (body req) "userPhone" = inr (JStr p) ->
  p <> "" ->
  ok r = false ->
  text r = inr d ->
  ((forall q, In (Fetch q) (trace (voice_call w env req)) -> fetch w q = inr r) ->
   responses (trace (voice_call w env req))
   = [ (500, BodyJson (JObj [ ("error", JStr "Failed to initiate call with Retell AI");
                              ("details", JStr d) ])) ])
  /\ (forall message,
         field (body req) "message" = inr message ->
         Js.truthy message = true ->
         (forall q, In (Fetch q) (trace (chat w env req)) -> fetch w q = inr r) ->
         responses (trace (chat w env req))
         = [ (500, BodyJson (JObj [ ("error", JStr "Failed to get response from Savana");
                                    ("details", JStr d) ])) ]).
Proof.
  intros Hphone Hp Hok Htext. split.
  - intros Hfetch.
    destruct (voice_call_upstream_failure w env req p r d Hphone Hp Hfetch Hok Htext)
      as [q ->]. reflexivity.
  - intros message Hmsg Hm Hfetch.
    destruct (chat_upstream_failure w env req message p r d
                Hmsg Hm Hphone Hp Hfetch Hok Htext) as [q ->]. reflexivity.
Qed.

Lemma retell_failure_surfaces_details_witness :
  let w := Sample.world (inr Sample.upstream_401) (inl Sample.network_down)
                        (inl Sample.bad_signature) in
  let req := Sample.json_request Sample.chat_body in
  ok Sample.upstream_401 = false
  /\ responses (trace (voice_call w Sample.env req))
     = [ (500, BodyJson (JObj [ ("error", JStr "Failed to initiate call with Retell AI");
                                ("details", JStr "Unauthorized") ])) ]
  /\ responses (trace (chat w Sample.env req))
     = [ (500, BodyJson (JObj [ ("error", JStr "Failed to get response from Savana");
                                ("details", JStr "Unauthorized") ])) ].
Proof.
  intros w req. split; [reflexivity|].
  assert (Hp : "+15550123" <> "") by discriminate.
  pose proof (retell_failure_surfaces_details w Sample.env req "+15550123"
                Sample.upstream_401 "Unauthorized" eq_refl Hp eq_refl eq_refl)
    as [Hvoice Hchat].
  split.
  - apply Hvoice. intros q _. reflexivity.
  - apply (Hchat (JStr "hello")); reflexivity.
Defined.

(** C9. A [/api/voice-call] request with a phone number (a non-empty
    string [userPhone]) makes one outbound call; its body has [to_number]
    equal to [userPhone] as supplied, and [metadata.phone] equal to
    [userPhone] without its first ['+']: unchanged when there is none, the
    text before and after the first one otherwise, so that every later
    ['+'] is kept. *)
Theorem voice_call_phone_numbers (w : World) (env : ProcessEnv) (req : Request)
  (p : string) :
  field (body req) "userPhone" = inr (JStr p) ->
  p <> "" ->
  exists q metadata,
    outbound_calls (trace (voice_call w env req)) = [Fetch q]
    /\ Js.get (req_body q) "to_number" = inr (JStr p)
    /\ Js.get (req_body q) "metadata" = inr metadata
    /\ Js.get metadata "phone" = inr (JStr (strip_first_plus p))
    /\ (count_plus p = 0 -> strip_first_plus p = p)
    /\ (forall a b, p = a ++ String "+" b -> count_plus a = 0 ->
                    strip_first_plus p = a ++ b)
    /\ count_plus (strip_first_plus p) = count_plus p - 1.
Proof.
  intros Hphone Hp.
  destruct (field_defined _ _ "userId" _ Hphone) as [userId Hid].
  destruct (voice_call_past_guard w env req p userId Hphone Hid Hp) as (t & Ht & Hout).
  eexists _, _. rewrite Ht, Hout. split; [reflexivity|].
  cbn [req_body create_phone_call Js.get Js.assoc String.eqb Ascii.eqb Bool.eqb].
  rewrite replace_plus_strip.
  repeat split.
  - apply strip_no_plus.
  - intros a b -> Ha. now apply strip_first_occurrence.
  - rewrite count_plus_strip. lia.
Qed.

Lemma voice_call_phone_numbers_witness :
  let w := Sample.world (inl Sample.network_down) (inl Sample.network_down)
                        (inl Sample.bad_signature) in
  let req := Sample.json_request Sample.two_plus_body in
  field (body req) "userPhone" = inr (JStr "+1+555")
  /\ exists q metadata,
       outbound_calls (trace (voice_call w Sample.env req)) = [Fetch q]
       /\ Js.get (req_body q) "to_number" = inr (JStr "+1+555")
       /\ Js.get (req_body q) "metadata" = inr metadata
       /\ Js.get metadata "phone" = inr (JStr "1+555").
Proof.
  intros w req. split; [reflexivity|].
  assert (Hp : "+1+555" <> "") by discriminate.
  destruct (voice_call_phone_numbers w Sample.env req "+1+555" eq_refl Hp)
    as (q & metadata & Hout & Hto & Hmeta & Hclean & _).
  exists q, metadata. repeat split; assumption.
Defined.

(** Case analysis on a run that is in a hypothesis. *)
Ltac reduce_run_in H :=
  cbv beta iota delta [bind emit lift ret throw try_catch app trace fst
                       call_replace_plus internal_error console_error
                       console_log res_json res_send] in H.

Ltac split_run_in H :=
  reduce_run_in H;
  repeat (match type of H with
          | context [match ?x with inl _ => _ | inr _ => _ end] => destruct x eqn:?
          | context [if ?b then _ else _] => destruct b eqn:?
          | context [match ?v with JStr _ => _ | _ => _ end] => destruct v
          end; reduce_run_in H).

Ltac absurd_effects H :=
  repeat match type of H with
    | _ \/ _ => destruct H as [H|H]
    | False => destruct H
    | _ = _ => try discriminate H
    end.

(** C10 as the specification states it fails: when Retell's first choice
    carries its content as a list of parts, [/api/chat] answers 200 with
    that list under [response], which is not a string. *)
Lemma chat_response_not_always_a_string :
  let w := Sample.world (inr Sample.completion_with_parts) (inl Sample.network_down)
                        (inl Sample.bad_signature) in
  responses (trace (chat w Sample.env (Sample.json_request Sample.chat_body)))
  = [ (200, BodyJson (JObj [ ("success", JBool true);
                             ("response", Sample.parts);
                             ("sessionId", JStr "s1") ])) ]
  /\ forall s, Sample.parts <> JStr s.
Proof.
  intros w. split; [reflexivity | discriminate].
Qed.

(** ** [/api/create-checkout-session] *)

(** The handler has no guard: on any object body it calls Stripe with the
    fields as they are, and answers 200 or 500 by what Stripe returns. *)
Lemma checkout_run (w : World) (env : ProcessEnv) (req : Request)
  (props : list (string * JsVal)) :
  body req = Parsed (JObj props) ->
  exists params t,
    trace (create_checkout_session w env req) = StripeCheckoutCreate params :: t
    /\ Js.opt_get (Js.index0 (Js.opt_get params "line_items")) "price"
       = Js.assoc "priceId" props
    /\ outbound_calls (StripeCheckoutCreate params :: t) = [StripeCheckoutCreate params]
    /\ ((exists reason,
            responses t = [ (500, BodyJson (JObj [ ("error", JStr reason) ])) ])
        \/ (exists session_id,
               responses t = [ (200, BodyJson (JObj [ ("sessionId", session_id) ])) ])).
Proof.
  intros Hbody. unfold create_checkout_session, body_field, await_checkout_create.
  rewrite Hbody. cbn [field Js.get].
  cbv beta iota delta [bind emit lift ret throw try_catch app trace fst].
  split_run; cbn [fst]; do 2 eexists; (split; [reflexivity|]); (split; [reflexivity|]);
    (split; [reflexivity|]); cbn;
    first [ left; eexists; reflexivity | right; eexists; reflexivity ].
Qed.

(** C3, where the code departs from it.  [/api/create-checkout-session]
    checks no field: on every JSON object body, with or without
    [priceId], [userId], [userEmail] and [planName], it makes the call to
    Stripe, passing [priceId] on as the price even when it is missing, and
    its response is 200 or 500, never 400.  (The guards of
    [/api/voice-call] and [/api/chat] are [voice_call_requires_phone] and
    [chat_requires_message_and_phone].) *)
Theorem checkout_session_has_no_field_guard (w : World) (env : ProcessEnv)
  (req : Request) (props : list (string * JsVal)) :
  body req = Parsed (JObj props) ->
  exists params,
    outbound_calls (trace (create_checkout_session w env req))
    = [StripeCheckoutCreate params]
    /\ Js.opt_get (Js.index0 (Js.opt_get params "line_items")) "price"
       = Js.assoc "priceId" props
    /\ forall code b,
         In (code, b) (responses (trace (create_checkout_session w env req))) ->
         code = 200 \/ code = 500.
Proof.
  intros Hbody.
  destruct (checkout_run w env req props Hbody) as (params & t & Ht & Hprice & Hout & Hres).
  exists params. rewrite Ht, Hout. repeat split; [exact Hprice|].
  intros code b. cbn [responses].
  destruct Hres as [[reason ->]|[session_id ->]];
    intros [[= <- _]|[]]; [right | left]; reflexivity.
Qed.

Lemma checkout_session_has_no_field_guard_witness :
  let w := Sample.world (inl Sample.network_down) (inl Sample.missing_price)
                        (inl Sample.bad_signature) in
  let req := Sample.json_request (JObj []) in
  body req = Parsed (JObj [])
  /\ (exists params,
         outbound_calls (trace (create_checkout_session w Sample.env req))
         = [StripeCheckoutCreate params]
         /\ Js.opt_get (Js.index0 (Js.opt_get params "line_items")) "price"
            = JUndefined)
  /\ responses (trace (create_checkout_session w Sample.env req))
     = [ (500, BodyJson (JObj [ ("error",
            JStr "Missing required param: line_items[0][price].") ])) ].
Proof.
  intros w req. split; [reflexivity|]. split; [|reflexivity].
  destruct (checkout_session_has_no_field_guard w Sample.env req [] eq_refl)
    as (params & Hout & Hprice & _).
  exists params. split; assumption.
Defined.

(** ** Sample runs *)

(** A call that Retell accepts. *)
Example voice_call_accepted :
  let w := Sample.world
             (inr (mkResponse true (inr "") (inr (JObj [ ("call_id", JStr "c1") ]))))
             (inl Sample.network_down) (inl Sample.bad_signature) in
  responses (trace (voice_call w Sample.env (Sample.json_request Sample.voice_body)))
  = [ (200, BodyJson (JObj [ ("success", JBool true);
                             ("callId", JStr "c1");
                             ("message", JStr "Voice call initiated successfully") ])) ].
Proof. reflexivity. Qed.

(** A phone number sent as a JSON number passes the guard and fails at
    [replace]: the [catch] block answers 500 and no call is made. *)
Example voice_call_numeric_phone :
  let w := Sample.world (inr Sample.upstream_401) (inl Sample.network_down)
                        (inl Sample.bad_signature) in
  let req := Sample.json_request (JObj [ ("userPhone", JNum PrimFloat.one) ]) in
  responses (trace (voice_call w Sample.env req))
  = [ (500, BodyJson (JObj [ ("error", JStr "Internal server error");
                             ("message", JStr "userPhone.replace is not a function") ])) ]
  /\ outbound_calls (trace (voice_call w Sample.env req)) = [].
Proof. split; reflexivity. Qed.

(** An empty body on [/api/voice-call] and on [/api/chat]. *)
Example relay_guards_on_empty_body :
  let w := Sample.world (inr Sample.upstream_401) (inl Sample.network_down)
                        (inl Sample.bad_signature) in
  let req := Sample.json_request (JObj []) in
  voice_call w Sample.env req
  = ([ Respond 400 (BodyJson (JObj [ ("error", JStr "User phone number is required") ])) ],
     inr tt)
  /\ chat w Sample.env req
     = ([ Respond 400 (BodyJson (JObj [ ("error", JStr "Message and user phone are required") ])) ],
        inr tt).
Proof. split; reflexivity. Qed.

(** A verified [invoice.payment_succeeded] event. *)
Example webhook_known_event :
  let w := Sample.world (inl Sample.network_down) (inl Sample.network_down)
                        (inr (JObj [ ("type", JStr "invoice.payment_succeeded") ])) in
  stripe_webhook w Sample.env Sample.webhook_request
  = ([ Console_ ConsoleLog [ LogVal (JStr "Subscription payment succeeded") ];
       Respond 200 (BodyJson received) ], inr tt).
Proof. reflexivity. Qed.

(** [`${v}`] on an array. *)
Example to_string_array :
  Js.to_string (fun _ => "1") (JArr [ JStr "a"; JNull; JBool true; JArr [ JStr "b"; JStr "c" ] ])
  = inr "a,,true,b,c".
Proof. reflexivity. Qed.

(** * Every path of the handlers *)

(** Full case analysis of a run in the goal: on each answer of a
    collaborator, each test, and the value [replace] is called on. *)
Ltac reduce_run :=
  cbv beta iota delta [bind emit lift ret throw try_catch app trace outcome fst snd
                       call_replace_plus internal_error console_error
                       console_log res_json res_send body_field await_fetch
                       await_checkout_create].

Ltac split_all :=
  reduce_run;
  repeat (match goal with
          | |- context [match ?x with inl _ => _ | inr _ => _ end] => destruct x eqn:?
          | |- context [if ?b then _ else _] => destruct b eqn:?
          | |- context [match ?v with JStr _ => _ | _ => _ end] => destruct v
          end; reduce_run).

(** X1.  The three asynchronous handlers wrap their whole body in [try]: no
    request and no answer of a collaborator makes them end with an
    exception. *)
Theorem relay_handlers_never_throw (w : World) (env : ProcessEnv) (req : Request) :
  outcome (voice_call w env req) = inr tt
  /\ outcome (chat w env req) = inr tt
  /\ outcome (create_checkout_session w env req) = inr tt.
Proof.
  repeat split.
  - unfold voice_call. split_all; reflexivity.
  - unfold chat. split_all; reflexivity.
  - unfold create_checkout_session. split_all; reflexivity.
Qed.

(** In a leaf of the case analysis the trace is an explicit list of at
    most four effects. *)
Ltac ends_with_response :=
  first [ eexists [], _, _; split; reflexivity
        | eexists [_], _, _; split; reflexivity
        | eexists [_; _], _, _; split; reflexivity
        | eexists [_; _; _], _, _; split; reflexivity ].

(** X2.  Each of the three asynchronous handlers writes exactly one HTTP
    response on every run, and the response is the last thing it does:
    nothing is logged or called after it. *)
Theorem relay_handlers_respond_once_at_the_end (w : World) (env : ProcessEnv)
  (req : Request) :
  (exists t code b, trace (voice_call w env req) = (t ++ [Respond code b])%list
                    /\ responses t = [])
  /\ (exists t code b, trace (chat w env req) = (t ++ [Respond code b])%list
                       /\ responses t = [])
  /\ (exists t code b,
         trace (create_checkout_session w env req) = (t ++ [Respond code b])%list
         /\ responses t = []).
Proof.
  repeat split.
  - unfold voice_call. split_all; ends_with_response.
  - unfold chat. split_all; ends_with_response.
  - unfold create_checkout_session. split_all; ends_with_response.
Qed.

(** X3.  Each of the three asynchronous handlers calls its provider at most
    once per request, as the first thing it does: the call comes
    before any console line and before the response. *)
Theorem relay_handlers_call_at_most_once (w : World) (env : ProcessEnv)
  (req : Request) :
  (outbound_calls (trace (voice_call w env req)) = []
   \/ exists q t, trace (voice_call w env req) = Fetch q :: t
                  /\ outbound_calls t = [])
  /\ (outbound_calls (trace (chat w env req)) = []
      \/ exists q t, trace (chat w env req) = Fetch q :: t
                     /\ outbound_calls t = [])
  /\ (outbound_calls (trace (create_checkout_session w env req)) = []
      \/ exists params t,
           trace (create_checkout_session w env req) = StripeCheckoutCreate params :: t
           /\ outbound_calls t = []).
Proof.
  repeat split.
  - unfold voice_call. split_all;
      first [ left; reflexivity | right; eexists _, _; split; reflexivity ].
  - unfold chat. split_all;
      first [ left; reflexivity | right; eexists _, _; split; reflexivity ].
  - unfold create_checkout_session. split_all;
      first [ left; reflexivity | right; eexists _, _; split; reflexivity ].
Qed.

(** ** Every path of the webhook handler *)

(** The [switch] only logs: it writes no response and calls no
    provider, and it logs one line when it completes. *)
Lemma switch_only_logs (w : World) (event : JsVal) :
  responses (trace (switch_event_type w event)) = []
  /\ outbound_calls (trace (switch_event_type w event)) = []
  /\ (outcome (switch_event_type w event) = inr tt ->
      exists line, trace (switch_event_type w event) = [Console_ ConsoleLog line])
  /\ (forall e, outcome (switch_event_type w event) = inl e ->
                trace (switch_event_type w event) = []).
Proof.
  unfold switch_event_type. split_all; cbn; repeat split;
    first [ discriminate | intros; eexists; reflexivity | intros; reflexivity
          | intros ? ?; discriminate ].
Qed.

(** X4.  The webhook handler ends with an exception exactly when the
    request verifies and the [switch] throws: the event is [null]; or it
    is a [checkout.session.completed] event whose [data] is missing or
    [null]; or its [type] is none of the three known tags and cannot be
    spliced into the text of the [default:] branch, because it holds an
    object with an own [toString] property.  Then it has sent no
    response; in every other case it has sent exactly one, as its last
    effect. *)
Theorem webhook_throws_only_on_unreadable_event (w : World) (env : ProcessEnv)
  (req : Request) :
  ((exists e, outcome (stripe_webhook w env req) = inl e)
   <-> exists event,
         constructEvent w (body req) (stripe_signature req)
                        (STRIPE_WEBHOOK_SECRET env) = inr event
         /\ (Js.nullish event = true
             \/ (Js.opt_get event "type" = JStr "checkout.session.completed"
                 /\ Js.nullish (Js.opt_get event "data") = true)
             \/ ((forall lit, In lit known_event_types ->
                              Js.opt_get event "type" <> JStr lit)
                 /\ Js.printable (Js.opt_get event "type") = false)))
  /\ (forall e, outcome (stripe_webhook w env req) = inl e ->
                responses (trace (stripe_webhook w env req)) = [])
  /\ (outcome (stripe_webhook w env req) = inr tt ->
      exists t code b,
        trace (stripe_webhook w env req) = (t ++ [Respond code b])%list
        /\ responses t = []).
Proof.
  destruct (constructEvent w (body req) (stripe_signature req)
                           (STRIPE_WEBHOOK_SECRET env)) as [err|event] eqn:Hv.
  - rewrite (stripe_webhook_rejected w env req err Hv). cbn. repeat split.
    + intros [e He]. discriminate.
    + intros (event & He & _). discriminate.
    + intros e He. discriminate.
    + intros _. eexists [_], _, _. split; reflexivity.
  - rewrite (stripe_webhook_verified w env req event Hv).
    pose proof (switch_throws_iff w event) as Hthrows.
    destruct (switch_only_logs w event) as (Hres & _ & Hline & Hnone).
    destruct (switch_event_type w event) as [t [e|[]]] eqn:Hsw; cbn in *.
    + repeat split.
      * intros _. exists event. split; [reflexivity|]. apply Hthrows. now exists e.
      * intros _. now exists e.
      * intros e' _. exact Hres.
      * discriminate.
    + repeat split.
      * intros [e He]. discriminate.
      * intros (event' & [= <-] & Hcond). apply Hthrows in Hcond.
        destruct Hcond as [e He]. discriminate.
      * intros e He. discriminate.
      * intros _. exists t, 200, (BodyJson received). split; [reflexivity | exact Hres].
Qed.

(** X5.  The status of the webhook's response tells the verdict: 400 is sent
    only when verification failed, with the verifier's reason as text;
    200 is sent only for a verified event, with body [{received: true}].
    The handler never calls a provider. *)
Theorem webhook_status_tells_verdict (w : World) (env : ProcessEnv) (req : Request) :
  (forall code b,
      In (code, b) (responses (trace (stripe_webhook w env req))) ->
      (code = 400
       /\ exists err,
            constructEvent w (body req) (stripe_signature req)
                           (STRIPE_WEBHOOK_SECRET env) = inl err
            /\ b = BodyText ("Webhook Error: " ++ message err))
      \/ (code = 200 /\ b = BodyJson received
          /\ exists event,
               constructEvent w (body req) (stripe_signature req)
                              (STRIPE_WEBHOOK_SECRET env) = inr event))
  /\ outbound_calls (trace (stripe_webhook w env req)) = [].
Proof.
  destruct (constructEvent w (body req) (stripe_signature req)
                           (STRIPE_WEBHOOK_SECRET env)) as [err|event] eqn:Hv.
  - rewrite (stripe_webhook_rejected w env req err Hv). cbn. split; [|reflexivity].
    intros code b [[= <- <-]|[]]. left. split; [reflexivity|]. now exists err.
  - rewrite (stripe_webhook_verified w env req event Hv).
    destruct (switch_only_logs w event) as (Hres & Hout & Hline & Hnone).
    destruct (switch_event_type w event) as [t [e|[]]] eqn:Hsw; cbn in *.
    + rewrite Hres, Hout. split; [|reflexivity]. intros code b [].
    + destruct (Hline eq_refl) as [line ->]. cbn. split; [|reflexivity].
      intros code b [[= <- <-]|[]]. right. repeat split. now exists event.
Qed.

(** ** The guards of [/api/voice-call] and [/api/chat] *)

(** Leaves of a case analysis in a hypothesis [H : In x l]: [l] is an
    explicit list. *)
Ltac in_leaf H :=
  cbn in H;
  repeat match type of H with
    | _ \/ _ => destruct H as [H|H]
    | False => destruct H
    end.

(** X7.  [/api/voice-call] answers 400 exactly when [userPhone] is missing or
    otherwise falsy ([null], [false], [0], the empty string); the 400 is
    then the whole run: nothing is logged and Retell is not called. *)
Theorem voice_call_400_iff_phone_falsy (w : World) (env : ProcessEnv) (req : Request) :
  ((exists b, In (400, b) (responses (trace (voice_call w env req))))
   <-> exists userPhone,
         field (body req) "userPhone" = inr userPhone /\ Js.truthy userPhone = false)
  /\ ((exists b, In (400, b) (responses (trace (voice_call w env req)))) ->
      voice_call w env req
      = ([ Respond 400 (BodyJson (JObj [ ("error", JStr "User phone number is required") ])) ],
         inr tt)).
Proof.
  assert (Hback : (exists b, In (400, b) (responses (trace (voice_call w env req)))) ->
                  exists userPhone,
                    field (body req) "userPhone" = inr userPhone
                    /\ Js.truthy userPhone = false).
  { intros [b Hin]. unfold voice_call, body_field, await_fetch in Hin.
    split_run_in Hin; in_leaf Hin; try discriminate Hin.
    all: eexists; split; [reflexivity|]; now apply negb_true_iff. }
  split; [split|].
  - exact Hback.
  - intros (userPhone & Hphone & Hfalsy).
    rewrite (voice_call_requires_phone w env req userPhone Hphone Hfalsy).
    eexists. left. reflexivity.
  - intros H. destruct (Hback H) as (userPhone & Hphone & Hfalsy).
    exact (voice_call_requires_phone w env req userPhone Hphone Hfalsy).
Qed.

(** X8.  [/api/chat] answers 400 exactly when [message] or [userPhone] is
    missing or otherwise falsy; the 400 is then the whole run. *)
Theorem chat_400_iff_message_or_phone_falsy (w : World) (env : ProcessEnv)
  (req : Request) :
  ((exists b, In (400, b) (responses (trace (chat w env req))))
   <-> exists message userPhone,
         field (body req) "message" = inr message
         /\ field (body req) "userPhone" = inr userPhone
         /\ (Js.truthy message = false \/ Js.truthy userPhone = false))
  /\ ((exists b, In (400, b) (responses (trace (chat w env req)))) ->
      chat w env req
      = ([ Respond 400 (BodyJson (JObj [ ("error", JStr "Message and user phone are required") ])) ],
         inr tt)).
Proof.
  assert (Hback : (exists b, In (400, b) (responses (trace (chat w env req)))) ->
                  exists message userPhone,
                    field (body req) "message" = inr message
                    /\ field (body req) "userPhone" = inr userPhone
                    /\ (Js.truthy message = false \/ Js.truthy userPhone = false)).
  { intros [b Hin]. unfold chat, body_field, await_fetch in Hin.
    split_run_in Hin; in_leaf Hin; try discriminate Hin.
    all: eexists _, _; split; [reflexivity|]; split; [reflexivity|];
      match goal with
      | Hg : negb (Js.truthy ?m) || negb (Js.truthy ?p) = true |- _ =>
          apply orb_true_iff in Hg; destruct Hg as [Hg|Hg];
          apply negb_true_iff in Hg; [left | right]; exact Hg
      end. }
  split; [split|].
  - exact Hback.
  - intros (message & userPhone & Hmsg & Hphone & Hfalsy).
    rewrite (chat_requires_message_and_phone w env req message userPhone
               Hmsg Hphone Hfalsy).
    eexists. left. reflexivity.
  - intros H. destruct (Hback H) as (message & userPhone & Hmsg & Hphone & Hfalsy).
    exact (chat_requires_message_and_phone w env req message userPhone
             Hmsg Hphone Hfalsy).
Qed.

(** X9.  A [userPhone] that is truthy but not a string (a JSON number, [true],
    an array, an object) passes the guard and fails at [replace]: both
    endpoints answer 500 "Internal server error" with the TypeError's
    message, log the error, and do not call Retell. *)
Theorem relay_non_string_phone_is_500 (w : World) (env : ProcessEnv) (req : Request)
  (userPhone : JsVal) :
  field (body req) "userPhone" = inr userPhone ->
  Js.truthy userPhone = true ->
  (forall s, userPhone <> JStr s) ->
  (exists m,
      voice_call w env req
      = ([ Console_ ConsoleError [ LogVal (JStr "Voice call error:");
                                   LogErr (TypeError m) ];
           Respond 500 (BodyJson (JObj [ ("error", JStr "Internal server error");
                                         ("message", JStr m) ])) ],
         inr tt))
  /\ (forall message,
         field (body req) "message" = inr message ->
         Js.truthy message = true ->
         exists m,
           chat w env req
           = ([ Console_ ConsoleError [ LogVal (JStr "Chat error:");
                                        LogErr (TypeError m) ];
                Respond 500 (BodyJson (JObj [ ("error", JStr "Internal server error");
                                              ("message", JStr m) ])) ],
              inr tt)).
Proof.
  intros Hphone Htruthy Hnot.
  destruct (field_defined _ _ "userId" _ Hphone) as [userId Hid].
  destruct (field_defined _ _ "sessionId" _ Hphone) as [sessionId Hsid].
  split.
  - unfold voice_call. repeat run_step. rewrite Hphone. run_step.
    rewrite Hid. run_step. rewrite Htruthy. cbn [negb].
    destruct userPhone; try discriminate Htruthy;
      try (eexists; reflexivity).
    now elim (Hnot s).
  - intros message Hmsg Hm.
    unfold chat. repeat run_step. rewrite Hmsg. run_step. rewrite Hphone. run_step.
    rewrite Hid. run_step. rewrite Hsid. run_step. rewrite Hm, Htruthy. cbn [negb orb].
    destruct userPhone; try discriminate Htruthy;
      try (eexists; reflexivity).
    now elim (Hnot s).
Qed.

Lemma relay_non_string_phone_is_500_witness :
  let w := Sample.world (inr Sample.upstream_401) (inl Sample.network_down)
                        (inl Sample.bad_signature) in
  let req := Sample.json_request (JObj [ ("userPhone", JBool true) ]) in
  field (body req) "userPhone" = inr (JBool true)
  /\ exists m,
       voice_call w Sample.env req
       = ([ Console_ ConsoleError [ LogVal (JStr "Voice call error:");
                                    LogErr (TypeError m) ];
            Respond 500 (BodyJson (JObj [ ("error", JStr "Internal server error");
                                          ("message", JStr m) ])) ],
          inr tt).
Proof.
  intros w req. split; [reflexivity|].
  apply (proj1 (relay_non_string_phone_is_500 w Sample.env req (JBool true)
                  eq_refl eq_refl ltac:(discriminate))).
Defined.

(** ** What the relay answers for each answer of Retell *)

Lemma get_of_present (v : JsVal) (k : string) :
  Js.nullish v = false -> Js.get v k = inr (Js.opt_get v k).
Proof. destruct v; cbn; intros H; try discriminate; reflexivity. Qed.

Lemma get_of_nullish (v : JsVal) (k : string) :
  Js.nullish v = true -> exists m, Js.get v k = inl (TypeError m).
Proof. destruct v; cbn; intros H; try discriminate; eexists; reflexivity. Qed.

(** The steps of [/api/voice-call] and [/api/chat] up to the [fetch],
    for a request that passes the guard with a string [userPhone]. *)
Ltac voice_to_fetch Hphone Hid Hp :=
  unfold voice_call; repeat run_step; rewrite Hphone; run_step;
  rewrite Hid; run_step; rewrite Hp; cbn [negb call_replace_plus]; run_step.

Ltac chat_to_fetch Hmsg Hphone Hid Hsid Hm Hp :=
  unfold chat; repeat run_step; rewrite Hmsg; run_step; rewrite Hphone; run_step;
  rewrite Hid; run_step; rewrite Hsid; run_step; rewrite Hm, Hp;
  cbn [negb orb call_replace_plus]; run_step.

(** X10.  When Retell accepts the call (a 2xx answer whose JSON is not [null]),
    [/api/voice-call] answers 200 with [success: true] and the [call_id]
    of Retell's JSON as [callId] ([undefined], hence absent from the
    response, when Retell's JSON has none), and logs nothing. *)
Theorem voice_call_success (w : World) (env : ProcessEnv) (req : Request)
  (p : string) (r : FetchResponse) (callData : JsVal) :
  field (body req) "userPhone" = inr (JStr p) ->
  p <> "" ->
  (forall q, In (Fetch q) (trace (voice_call w env req)) -> fetch w q = inr r) ->
  ok r = true ->
  json r = inr callData ->
  Js.nullish callData = false ->
  exists q,
    voice_call w env req
    = ([ Fetch q;
         Respond 200 (BodyJson (JObj [ ("success", JBool true);
                                       ("callId", Js.opt_get callData "call_id");
                                       ("message", JStr "Voice call initiated successfully") ])) ],
       inr tt).
Proof.
  intros Hphone Hp Hfetch Hok Hjson Hpresent.
  destruct (field_defined _ _ "userId" _ Hphone) as [userId Hid].
  destruct (voice_call_past_guard w env req p userId Hphone Hid Hp) as (t & Ht & _).
  specialize (Hfetch _ ltac:(rewrite Ht; left; reflexivity)).
  eexists. apply truthy_str in Hp. voice_to_fetch Hphone Hid Hp.
  rewrite (await_fetch_resolved _ _ _ Hfetch). unfold_run.
  rewrite Hok, Hjson, (get_of_present _ "call_id" Hpresent). reflexivity.
Qed.

Lemma voice_call_success_witness :
  let r := mkResponse true (inr "") (inr (JObj [ ("call_id", JStr "c1") ])) in
  let w := Sample.world (inr r) (inl Sample.network_down) (inl Sample.bad_signature) in
  let req := Sample.json_request Sample.voice_body in
  ok r = true
  /\ exists q,
       voice_call w Sample.env req
       = ([ Fetch q;
            Respond 200 (BodyJson (JObj [ ("success", JBool true);
                                          ("callId", JStr "c1");
                                          ("message", JStr "Voice call initiated successfully") ])) ],
          inr tt).
Proof.
  intros r w req. split; [reflexivity|].
  assert (Hp : "+15550123" <> "") by discriminate.
  apply (voice_call_success w Sample.env req "+15550123" r
           (JObj [ ("call_id", JStr "c1") ]) eq_refl Hp);
    reflexivity.
Defined.

(** X11.  When Retell answers the chat completion with a 2xx whose JSON is not
    [null], [/api/chat] answers 200 with [success: true], the reply
    [content || fallback], and as [sessionId] the [session_id] of Retell's
    JSON: the [sessionId] of the request is sent to Retell but is not
    what comes back. *)
Theorem chat_success (w : World) (env : ProcessEnv) (req : Request)
  (message : JsVal) (p : string) (r : FetchResponse) (chatData : JsVal) :
  field (body req) "message" = inr message ->
  Js.truthy message = true ->
  field (body req) "userPhone" = inr (JStr p) ->
  p <> "" ->
  (forall q, In (Fetch q) (trace (chat w env req)) -> fetch w q = inr r) ->
  ok r = true ->
  json r = inr chatData ->
  Js.nullish chatData = false ->
  exists q,
    chat w env req
    = ([ Fetch q;
         Respond 200
           (BodyJson
              (JObj [ ("success", JBool true);
                      ("response",
                       Js.or_else
                         (Js.opt_get (Js.opt_get (Js.opt_index0 (Js.opt_get chatData "choices"))
                                                 "message") "content")
                         (JStr chat_fallback));
                      ("sessionId", Js.opt_get chatData "session_id") ])) ],
       inr tt).
Proof.
  intros Hmsg Hm Hphone Hp Hfetch Hok Hjson Hpresent.
  destruct (field_defined _ _ "userId" _ Hphone) as [userId Hid].
  destruct (field_defined _ _ "sessionId" _ Hphone) as [sessionId Hsid].
  destruct (chat_past_guard w env req p message userId sessionId
              Hmsg Hphone Hid Hsid Hm Hp) as (t & Ht & _).
  specialize (Hfetch _ ltac:(rewrite Ht; left; reflexivity)).
  eexists. apply truthy_str in Hp. chat_to_fetch Hmsg Hphone Hid Hsid Hm Hp.
  rewrite (await_fetch_resolved _ _ _ Hfetch). unfold_run.
  unfold first_choice_content.
  rewrite Hok, Hjson, !(get_of_present _ _ Hpresent). reflexivity.
Qed.

Lemma chat_success_witness :
  let w := Sample.world (inr Sample.completion_with_text) (inl Sample.network_down)
                        (inl Sample.bad_signature) in
  let req := Sample.json_request Sample.chat_body in
  ok Sample.completion_with_text = true
  /\ exists q,
       chat w Sample.env req
       = ([ Fetch q;
            Respond 200 (BodyJson (JObj [ ("success", JBool true);
                                          ("response", JStr "Hello");
                                          ("sessionId", JStr "s1") ])) ],
          inr tt).
Proof.
  intros w req. split; [reflexivity|].
  assert (Hp : "+15550123" <> "") by discriminate.
  apply (chat_success w Sample.env req (JStr "hello") "+15550123"
           Sample.completion_with_text
           (JObj [ ("choices", JArr [ JObj [ ("message",
                                             JObj [ ("content", JStr "Hello") ]) ] ]);
                   ("session_id", JStr "s1") ])
           eq_refl eq_refl eq_refl Hp);
    reflexivity.
Defined.

(** X12.  When the [fetch] itself rejects (Retell cannot be reached), both
    endpoints log the error and answer 500 "Internal server error" with
    the error's message; there is no [details] field. *)
Theorem relay_fetch_rejection_is_500 (w : World) (env : ProcessEnv) (req : Request)
  (p : string) (e : JsError) :
  field (body req) "userPhone" = inr (JStr p) ->
  p <> "" ->
  ((forall q, In (Fetch q) (trace (voice_call w env req)) -> fetch w q = inl e) ->
   exists q, voice_call w env req = caught_after_fetch q "Voice call error:" e)
  /\ (forall message,
         field (body req) "message" = inr message ->
         Js.truthy message = true ->
         (forall q, In (Fetch q) (trace (chat w env req)) -> fetch w q = inl e) ->
         exists q, chat w env req = caught_after_fetch q "Chat error:" e).
Proof.
  intros Hphone Hp.
  destruct (field_defined _ _ "userId" _ Hphone) as [userId Hid].
  destruct (field_defined _ _ "sessionId" _ Hphone) as [sessionId Hsid].
  split.
  - intros Hfetch.
    destruct (voice_call_past_guard w env req p userId Hphone Hid Hp) as (t & Ht & _).
    specialize (Hfetch _ ltac:(rewrite Ht; left; reflexivity)).
    eexists. apply truthy_str in Hp. voice_to_fetch Hphone Hid Hp.
    unfold await_fetch. unfold_run. rewrite Hfetch. reflexivity.
  - intros message Hmsg Hm Hfetch.
    destruct (chat_past_guard w env req p message userId sessionId
                Hmsg Hphone Hid Hsid Hm Hp) as (t & Ht & _).
    specialize (Hfetch _ ltac:(rewrite Ht; left; reflexivity)).
    eexists. apply truthy_str in Hp. chat_to_fetch Hmsg Hphone Hid Hsid Hm Hp.
    unfold await_fetch. unfold_run. rewrite Hfetch. reflexivity.
Qed.

Lemma relay_fetch_rejection_is_500_witness :
  let w := Sample.world (inl Sample.network_down) (inl Sample.network_down)
                        (inl Sample.bad_signature) in
  let req := Sample.json_request Sample.chat_body in
  field (body req) "userPhone" = inr (JStr "+15550123")
  /\ responses (trace (voice_call w Sample.env req))
     = [ (500, BodyJson (JObj [ ("error", JStr "Internal server error");
                                ("message", JStr "fetch failed") ])) ]
  /\ responses (trace (chat w Sample.env req))
     = [ (500, BodyJson (JObj [ ("error", JStr "Internal server error");
                                ("message", JStr "fetch failed") ])) ].
Proof.
  intros w req. split; [reflexivity|].
  assert (Hp : "+15550123" <> "") by discriminate.
  pose proof (relay_fetch_rejection_is_500 w Sample.env req "+15550123"
                Sample.network_down eq_refl Hp) as [Hvoice Hchat].
  split.
  - destruct Hvoice as [q ->]; reflexivity.
  - destruct (Hchat (JStr "hello")) as [q ->]; reflexivity.
Defined.

(** X13.  When Retell answers but the answer cannot be read, both endpoints
    log the error and answer 500 "Internal server error", whatever the
    status of Retell's answer was: a non-2xx answer whose text cannot be
    read, a 2xx answer whose body is not JSON, and a 2xx answer whose JSON
    is [null]. *)
Theorem relay_unreadable_answer_is_500 (w : World) (env : ProcessEnv) (req : Request)
  (p : string) (r : FetchResponse) :
  field (body req) "userPhone" = inr (JStr p) ->
  p <> "" ->
  (ok r = false /\ (exists e, text r = inl e))
  \/ (ok r = true /\ (exists e, json r = inl e))
  \/ (ok r = true /\ exists v, json r = inr v /\ Js.nullish v = true) ->
  ((forall q, In (Fetch q) (trace (voice_call w env req)) -> fetch w q = inr r) ->
   exists q e, voice_call w env req = caught_after_fetch q "Voice call error:" e
               /\ (forall e', text r = inl e' -> ok r = false -> e = e')
               /\ (forall e', json r = inl e' -> ok r = true -> e = e'))
  /\ (forall message,
         field (body req) "message" = inr message ->
         Js.truthy message = true ->
         (forall q, In (Fetch q) (trace (chat w env req)) -> fetch w q = inr r) ->
         exists q e, chat w env req = caught_after_fetch q "Chat error:" e
                     /\ (forall e', text r = inl e' -> ok r = false -> e = e')
                     /\ (forall e', json r = inl e' -> ok r = true -> e = e')).
Proof.
  intros Hphone Hp Hbad.
  destruct (field_defined _ _ "userId" _ Hphone) as [userId Hid].
  destruct (field_defined _ _ "sessionId" _ Hphone) as [sessionId Hsid].
  split.
  - intros Hfetch.
    destruct (voice_call_past_guard w env req p userId Hphone Hid Hp) as (t & Ht & _).
    specialize (Hfetch _ ltac:(rewrite Ht; left; reflexivity)).
    apply truthy_str in Hp.
    destruct Hbad as [[Hok [e He]]|[[Hok [e He]]|[Hok (v & Hv & Hnull)]]].
    + eexists _, e. split; [|split].
      * voice_to_fetch Hphone Hid Hp.
        rewrite (await_fetch_resolved _ _ _ Hfetch). unfold_run.
        rewrite Hok, He. reflexivity.
      * intros e' He' _. congruence.
      * intros e' _ Hok'. congruence.
    + eexists _, e. split; [|split].
      * voice_to_fetch Hphone Hid Hp.
        rewrite (await_fetch_resolved _ _ _ Hfetch). unfold_run.
        rewrite Hok, He. reflexivity.
      * intros e' _ Hok'. congruence.
      * intros e' He' _. congruence.
    + destruct (get_of_nullish v "call_id" Hnull) as [m Hm].
      eexists _, (TypeError m). split; [|split].
      * voice_to_fetch Hphone Hid Hp.
        rewrite (await_fetch_resolved _ _ _ Hfetch). unfold_run.
        rewrite Hok, Hv, Hm. reflexivity.
      * intros e' _ Hok'. congruence.
      * intros e' He' _. congruence.
  - intros message Hmsg Hm Hfetch.
    destruct (chat_past_guard w env req p message userId sessionId
                Hmsg Hphone Hid Hsid Hm Hp) as (t & Ht & _).
    specialize (Hfetch _ ltac:(rewrite Ht; left; reflexivity)).
    apply truthy_str in Hp.
    destruct Hbad as [[Hok [e He]]|[[Hok [e He]]|[Hok (v & Hv & Hnull)]]].
    + eexists _, e. split; [|split].
      * chat_to_fetch Hmsg Hphone Hid Hsid Hm Hp.
        rewrite (await_fetch_resolved _ _ _ Hfetch). unfold_run.
        rewrite Hok, He. reflexivity.
      * intros e' He' _. congruence.
      * intros e' _ Hok'. congruence.
    + eexists _, e. split; [|split].
      * chat_to_fetch Hmsg Hphone Hid Hsid Hm Hp.
        rewrite (await_fetch_resolved _ _ _ Hfetch). unfold_run.
        rewrite Hok, He. reflexivity.
      * intros e' _ Hok'. congruence.
      * intros e' He' _. congruence.
    + destruct (get_of_nullish v "choices" Hnull) as [m Hm'].
      eexists _, (TypeError m). split; [|split].
      * chat_to_fetch Hmsg Hphone Hid Hsid Hm Hp.
        rewrite (await_fetch_resolved _ _ _ Hfetch). unfold_run.
        unfold first_choice_content. rewrite Hok, Hv, Hm'. reflexivity.
      * intros e' _ Hok'. congruence.
      * intros e' He' _. congruence.
Qed.

Lemma relay_unreadable_answer_is_500_witness :
  let r := mkResponse true (inr "<html>") (inl (mkError "SyntaxError" "Unexpected token <")) in
  let w := Sample.world (inr r) (inl Sample.network_down) (inl Sample.bad_signature) in
  let req := Sample.json_request Sample.voice_body in
  ok r = true
  /\ responses (trace (voice_call w Sample.env req))
     = [ (500, BodyJson (JObj [ ("error", JStr "Internal server error");
                                ("message", JStr "Unexpected token <") ])) ].
Proof.
  intros r w req. split; [reflexivity|].
  assert (Hp : "+15550123" <> "") by discriminate.
  destruct (proj1 (relay_unreadable_answer_is_500 w Sample.env req "+15550123" r
                     eq_refl Hp
                     (or_intror (or_introl (conj eq_refl (ex_intro _ _ eq_refl)))))
              (fun q _ => eq_refl))
    as (q & e & Hrun & _ & He).
  rewrite Hrun, (He _ eq_refl eq_refl). reflexivity.
Defined.

(** ** What is sent to Retell *)

(** X14.  A [/api/chat] request that passes the guard makes one outbound call
    whose body carries the message as it came, as the content of a single
    [user] message, and in [metadata] the phone number without its first
    ['+'] together with the request's [userId] and [sessionId]. *)
Theorem chat_request_body (w : World) (env : ProcessEnv) (req : Request)
  (message : JsVal) (p : string) :
  field (body req) "message" = inr message ->
  Js.truthy message = true ->
  field (body req) "userPhone" = inr (JStr p) ->
  p <> "" ->
  exists q userId sessionId,
    outbound_calls (trace (chat w env req)) = [Fetch q]
    /\ field (body req) "userId" = inr userId
    /\ field (body req) "sessionId" = inr sessionId
    /\ Js.opt_get (req_body q) "messages"
       = JArr [ JObj [ ("role", JStr "user"); ("content", message) ] ]
    /\ Js.opt_get (req_body q) "metadata"
       = JObj [ ("user_id", userId);
                ("phone", JStr (strip_first_plus p));
                ("session_id", sessionId) ]
    /\ Js.opt_get (req_body q) "llm_id" = Js.env_val (RETELL_LLM_ID env).
Proof.
  intros Hmsg Hm Hphone Hp.
  destruct (field_defined _ _ "userId" _ Hphone) as [userId Hid].
  destruct (field_defined _ _ "sessionId" _ Hphone) as [sessionId Hsid].
  destruct (chat_past_guard w env req p message userId sessionId
              Hmsg Hphone Hid Hsid Hm Hp) as (t & Ht & Hout).
  eexists _, userId, sessionId. rewrite Ht, Hout.
  split; [reflexivity|]. split; [exact Hid|]. split; [exact Hsid|].
  cbn. rewrite replace_plus_strip. repeat split.
Qed.

Lemma chat_request_body_witness :
  let w := Sample.world (inl Sample.network_down) (inl Sample.network_down)
                        (inl Sample.bad_signature) in
  let req := Sample.json_request Sample.chat_body in
  field (body req) "message" = inr (JStr "hello")
  /\ exists q,
       outbound_calls (trace (chat w Sample.env req)) = [Fetch q]
       /\ Js.opt_get (req_body q) "metadata"
          = JObj [ ("user_id", JStr "u1"); ("phone", JStr "15550123");
                   ("session_id", JStr "s1") ].
Proof.
  intros w req. split; [reflexivity|].
  assert (Hp : "+15550123" <> "") by discriminate.
  destruct (chat_request_body w Sample.env req (JStr "hello") "+15550123"
              eq_refl eq_refl eq_refl Hp)
    as (q & userId & sessionId & Hout & Hid & Hsid & _ & Hmeta & _).
  exists q. split; [exact Hout|].
  injection Hid as <-. injection Hsid as <-. exact Hmeta.
Defined.

(** X15.  Every call to Retell, on whatever path, is a POST to the endpoint's
    one URL with a JSON content type and the bearer token built from
    [RETELL_API_KEY]; the handlers do not check that the key is set, and
    an unset key is sent as the text "Bearer undefined". *)
Theorem retell_calls_are_authorised_posts (w : World) (env : ProcessEnv)
  (req : Request) (q : FetchRequest) :
  (In (Fetch q) (trace (voice_call w env req)) ->
   url q = "https://api.retellai.com/create-phone-call"
   /\ method q = "POST"
   /\ headers q = [ ("Authorization", "Bearer " ++ Js.env_to_string (RETELL_API_KEY env));
                    ("Content-Type", "application/json") ]
   /\ (RETELL_API_KEY env = None -> In ("Authorization", "Bearer undefined") (headers q)))
  /\ (In (Fetch q) (trace (chat w env req)) ->
      url q = "https://api.retellai.com/chat-completion"
      /\ method q = "POST"
      /\ headers q = [ ("Authorization", "Bearer " ++ Js.env_to_string (RETELL_API_KEY env));
                       ("Content-Type", "application/json") ]
      /\ (RETELL_API_KEY env = None -> In ("Authorization", "Bearer undefined") (headers q))).
Proof.
  split; intros Hin.
  - unfold voice_call, body_field, await_fetch in Hin.
    split_run_in Hin; in_leaf Hin; try discriminate Hin.
    all: injection Hin as <-; repeat split; intros Hkey;
      unfold create_phone_call, chat_completion, retell_headers; cbn [headers];
      rewrite Hkey; left; reflexivity.
  - unfold chat, body_field, await_fetch in Hin.
    split_run_in Hin; in_leaf Hin; try discriminate Hin.
    all: injection Hin as <-; repeat split; intros Hkey;
      unfold create_phone_call, chat_completion, retell_headers; cbn [headers];
      rewrite Hkey; left; reflexivity.
Qed.

(** ** Status codes and the console *)

Ltac status_leaf :=
  eexists _, _; split; [reflexivity|];
  split; [ first [ left; reflexivity | right; left; reflexivity
                 | right; right; reflexivity ] |];
  split; [ intros Hc; first [ discriminate Hc | eexists; reflexivity ] |];
  split; [ intros Hc; first [ reflexivity | now elim Hc ] |];
  intros c args Hin; in_leaf Hin; try discriminate Hin;
  injection Hin as <- _; reflexivity.

(** X16.  The three asynchronous handlers answer 200, 400 or 500 and nothing
    else.  A 500 comes with exactly one console line, a 200 or a 400 with
    none, and every console line is a [console.error]: failures are
    always logged and nothing else is. *)
Theorem relay_statuses_and_logs (w : World) (env : ProcessEnv) (req : Request) :
  let logged (run : Prog unit) :=
    exists code b,
      responses (trace run) = [ (code, b) ]
      /\ (code = 200 \/ code = 400 \/ code = 500)
      /\ (code = 500 -> exists line, console_lines (trace run) = [line])
      /\ (code <> 500 -> console_lines (trace run) = [])
      /\ (forall c args, In (Console_ c args) (trace run) -> c = ConsoleError) in
  logged (voice_call w env req)
  /\ logged (chat w env req)
  /\ logged (create_checkout_session w env req).
Proof.
  intros logged. unfold logged. repeat split.
  - unfold voice_call. split_all; status_leaf.
  - unfold chat. split_all; status_leaf.
  - unfold create_checkout_session. split_all; status_leaf.
Qed.

(** Replaying a run in the goal with the answers known from the
    context. *)
Ltac replay :=
  reduce_run;
  repeat (match goal with
          | H : ?x = _ |- context [?x] => rewrite H
          end; reduce_run).

(** X17.  A 200 is never sent on the handler's own account: [/api/voice-call]
    answers 200 only after Retell answered 2xx with JSON, and passes on
    that JSON's [call_id]; [/api/create-checkout-session] answers 200 only
    after Stripe returned a session, and passes on its [id]. *)
Theorem relay_success_needs_provider_success (w : World) (env : ProcessEnv)
  (req : Request) (v : JsVal) :
  (In (Respond 200 (BodyJson v)) (trace (voice_call w env req)) ->
   exists q r callData,
     In (Fetch q) (trace (voice_call w env req))
     /\ fetch w q = inr r /\ ok r = true /\ json r = inr callData
     /\ v = JObj [ ("success", JBool true);
                   ("callId", Js.opt_get callData "call_id");
                   ("message", JStr "Voice call initiated successfully") ])
  /\ (In (Respond 200 (BodyJson v)) (trace (create_checkout_session w env req)) ->
      exists params session,
        In (StripeCheckoutCreate params) (trace (create_checkout_session w env req))
        /\ checkout_sessions_create w params = inr session
        /\ v = JObj [ ("sessionId", Js.opt_get session "id") ]).
Proof.
  split; intros Hin.
  - pose proof Hin as Hrun. unfold voice_call, body_field, await_fetch in Hrun.
    split_run_in Hrun; in_leaf Hrun; try discriminate Hrun.
    all: injection Hrun as <-;
      match goal with
      | H : Js.get ?d "call_id" = inr ?c |- _ =>
          assert (c = Js.opt_get d "call_id")
            by (destruct d; cbn in H; try discriminate H; now injection H as <-);
          subst c
      end;
      match goal with H : fetch _ ?q = inr ?r |- _ => exists q, r end;
      eexists; split; [| repeat split; first [eassumption | now apply negb_false_iff]].
    all: unfold voice_call; replay; left; reflexivity.
  - pose proof Hin as Hrun.
    unfold create_checkout_session, body_field, await_checkout_create in Hrun.
    split_run_in Hrun; in_leaf Hrun; try discriminate Hrun.
    all: injection Hrun as <-;
      match goal with
      | H : Js.get ?d "id" = inr ?c |- _ =>
          assert (c = Js.opt_get d "id")
            by (destruct d; cbn in H; try discriminate H; now injection H as <-);
          subst c
      end;
      match goal with H : checkout_sessions_create _ ?q = inr ?r |- _ => exists q, r end;
      split; [| split; [assumption | reflexivity]].
    all: unfold create_checkout_session; replay; left; reflexivity.
Qed.

(** ** [/api/create-checkout-session], field by field *)

(** X18.  The session parameters are the request's fields as they came: the
    price, the e-mail address and the metadata are passed on unchanged
    (missing ones as [undefined]), for one subscription paid by card.  The
    two redirect URLs are built from the request's [Origin] header, which
    the handler does not check: without the header they start with the
    text "undefined". *)
Theorem checkout_session_params (w : World) (env : ProcessEnv) (req : Request)
  (props : list (string * JsVal)) :
  body req = Parsed (JObj props) ->
  exists params t,
    trace (create_checkout_session w env req) = StripeCheckoutCreate params :: t
    /\ Js.opt_get params "payment_method_types" = JArr [ JStr "card" ]
    /\ Js.opt_get params "mode" = JStr "subscription"
    /\ Js.opt_get params "line_items"
       = JArr [ JObj [ ("price", Js.assoc "priceId" props);
                       ("quantity", JNum PrimFloat.one) ] ]
    /\ Js.opt_get params "customer_email" = Js.assoc "userEmail" props
    /\ Js.opt_get params "metadata"
       = JObj [ ("userId", Js.assoc "userId" props);
                ("planName", Js.assoc "planName" props) ]
    /\ Js.opt_get params "success_url"
       = JStr (Js.env_to_string (origin req)
               ++ "/dashboard?session_id={CHECKOUT_SESSION_ID}")
    /\ Js.opt_get params "cancel_url"
       = JStr (Js.env_to_string (origin req) ++ "/subscribe")
    /\ (origin req = None ->
        Js.opt_get params "success_url"
        = JStr "undefined/dashboard?session_id={CHECKOUT_SESSION_ID}"
        /\ Js.opt_get params "cancel_url" = JStr "undefined/subscribe").
Proof.
  intros Hbody. unfold create_checkout_session, body_field. rewrite Hbody.
  cbn [field Js.get]. split_all; cbn [fst];
    eexists _, _; (split; [reflexivity|]); cbn [Js.opt_get Js.assoc String.eqb Ascii.eqb Bool.eqb];
    repeat split; try reflexivity;
    match goal with H : origin _ = None |- _ => rewrite H; reflexivity end.
Qed.

Lemma checkout_session_params_witness :
  let w := Sample.world (inl Sample.network_down) (inl Sample.missing_price)
                        (inl Sample.bad_signature) in
  let req := mkRequest None None
               (Parsed (JObj [ ("priceId", JStr "price_1"); ("userEmail", JStr "a@b.c") ])) in
  origin req = None
  /\ exists params t,
       trace (create_checkout_session w Sample.env req) = StripeCheckoutCreate params :: t
       /\ Js.opt_get params "customer_email" = JStr "a@b.c"
       /\ Js.opt_get params "cancel_url" = JStr "undefined/subscribe".
Proof.
  intros w req. split; [reflexivity|].
  destruct (checkout_session_params w Sample.env req
              [ ("priceId", JStr "price_1"); ("userEmail", JStr "a@b.c") ] eq_refl)
    as (params & t & Ht & _ & _ & _ & Hmail & _ & _ & _ & Hnone).
  exists params, t. split; [exact Ht|]. split; [exact Hmail|].
  exact (proj2 (Hnone eq_refl)).
Defined.

(** X19.  What [/api/create-checkout-session] answers: when Stripe refuses or
    cannot be reached, 500 with Stripe's own message as [error], after
    logging the error; when Stripe returns a session, 200 with the
    session's [id] as [sessionId]. *)
Theorem checkout_session_outcomes (w : World) (env : ProcessEnv) (req : Request)
  (props : list (string * JsVal)) :
  body req = Parsed (JObj props) ->
  (forall e,
      (forall params, In (StripeCheckoutCreate params)
                         (trace (create_checkout_session w env req)) ->
                      checkout_sessions_create w params = inl e) ->
      exists params,
        create_checkout_session w env req
        = ([ StripeCheckoutCreate params;
             Console_ ConsoleError [ LogVal (JStr "Stripe session creation error:");
                                     LogErr e ];
             Respond 500 (BodyJson (JObj [ ("error", JStr (message e)) ])) ],
           inr tt))
  /\ (forall session,
         (forall params, In (StripeCheckoutCreate params)
                            (trace (create_checkout_session w env req)) ->
                         checkout_sessions_create w params = inr session) ->
         Js.nullish session = false ->
         exists params,
           create_checkout_session w env req
           = ([ StripeCheckoutCreate params;
                Respond 200 (BodyJson (JObj [ ("sessionId", Js.opt_get session "id") ])) ],
              inr tt)).
Proof.
  intros Hbody. split.
  - intros e Hcreate.
    unfold create_checkout_session, body_field, await_checkout_create in *.
    rewrite Hbody in *. cbn [field Js.get] in *. reduce_run_in Hcreate. reduce_run.
    destruct (checkout_sessions_create w _) as [e'|session] eqn:Hc.
    + specialize (Hcreate _ (or_introl eq_refl)). rewrite Hc in Hcreate.
      injection Hcreate as <-. eexists. reflexivity.
    + exfalso. destruct (Js.get session "id");
        specialize (Hcreate _ (or_introl eq_refl)); congruence.
  - intros session Hcreate Hpresent.
    unfold create_checkout_session, body_field, await_checkout_create in *.
    rewrite Hbody in *. cbn [field Js.get] in *. reduce_run_in Hcreate. reduce_run.
    destruct (checkout_sessions_create w _) as [e'|session'] eqn:Hc.
    + exfalso. specialize (Hcreate _ (or_introl eq_refl)). congruence.
    + assert (session' = session).
      { destruct (Js.get session' "id");
          specialize (Hcreate _ (or_introl eq_refl)); congruence. }
      subst session'. rewrite (get_of_present _ "id" Hpresent).
      eexists. reflexivity.
Qed.

Lemma checkout_session_outcomes_witness :
  let w := Sample.world (inl Sample.network_down)
                        (inr (JObj [ ("id", JStr "cs_1") ]))
                        (inl Sample.bad_signature) in
  let req := Sample.json_request (JObj [ ("priceId", JStr "price_1") ]) in
  body req = Parsed (JObj [ ("priceId", JStr "price_1") ])
  /\ responses (trace (create_checkout_session w Sample.env req))
     = [ (200, BodyJson (JObj [ ("sessionId", JStr "cs_1") ])) ].
Proof.
  intros w req. split; [reflexivity|].
  destruct (proj2 (checkout_session_outcomes w Sample.env req
                     [ ("priceId", JStr "price_1") ] eq_refl)
              (JObj [ ("id", JStr "cs_1") ]) (fun _ _ => eq_refl) eq_refl)
    as [params ->].
  reflexivity.
Defined.

(** ** A request without a parsed body *)

(** X20.  When [req.body] is [undefined] or [null] (no JSON body was parsed),
    the destructuring throws inside [try]: each of the three asynchronous
    handlers logs the TypeError and answers 500, [/api/voice-call] and
    [/api/chat] as "Internal server error", [/api/create-checkout-session]
    with the TypeError's message as [error]; no provider is called. *)
Theorem relay_missing_body_is_500 (w : World) (env : ProcessEnv) (req : Request)
  (v : JsVal) :
  body req = Parsed v ->
  Js.nullish v = true ->
  (exists m,
      voice_call w env req
      = ([ Console_ ConsoleError [ LogVal (JStr "Voice call error:"); LogErr (TypeError m) ];
           Respond 500 (BodyJson (JObj [ ("error", JStr "Internal server error");
                                         ("message", JStr m) ])) ],
         inr tt))
  /\ (exists m,
         chat w env req
         = ([ Console_ ConsoleError [ LogVal (JStr "Chat error:"); LogErr (TypeError m) ];
              Respond 500 (BodyJson (JObj [ ("error", JStr "Internal server error");
                                            ("message", JStr m) ])) ],
            inr tt))
  /\ (exists m,
         create_checkout_session w env req
         = ([ Console_ ConsoleError [ LogVal (JStr "Stripe session creation error:");
                                      LogErr (TypeError m) ];
              Respond 500 (BodyJson (JObj [ ("error", JStr m) ])) ],
            inr tt)).
Proof.
  intros Hbody Hnull.
  unfold voice_call, chat, create_checkout_session, body_field. rewrite Hbody.
  destruct v; try discriminate Hnull; repeat split; eexists; reflexivity.
Qed.

Lemma relay_missing_body_is_500_witness :
  let w := Sample.world (inr Sample.upstream_401) (inl Sample.network_down)
                        (inl Sample.bad_signature) in
  let req := Sample.json_request JUndefined in
  body req = Parsed JUndefined
  /\ exists m,
       responses (trace (voice_call w Sample.env req))
       = [ (500, BodyJson (JObj [ ("error", JStr "Internal server error");
                                  ("message", JStr m) ])) ].
Proof.
  intros w req. split; [reflexivity|].
  destruct (proj1 (relay_missing_body_is_500 w Sample.env req JUndefined
                     eq_refl eq_refl)) as [m ->].
  exists m. reflexivity.
Defined.

(** ** The known event types *)

(** X6.  A verified event of one of the three known types is logged by its
    own branch and acknowledged with 200 [{received: true}]:
    [invoice.payment_succeeded] and [customer.subscription.deleted] log a
    fixed line, [checkout.session.completed] logs the session
    [event.data.object] when the event has [data]. *)
Theorem webhook_known_types_acknowledged (w : World) (env : ProcessEnv)
  (req : Request) (event : JsVal) :
  constructEvent w (body req) (stripe_signature req) (STRIPE_WEBHOOK_SECRET env)
  = inr event ->
  (Js.opt_get event "type" = JStr "invoice.payment_succeeded" ->
   stripe_webhook w env req
   = ([ Console_ ConsoleLog [ LogVal (JStr "Subscription payment succeeded") ];
        Respond 200 (BodyJson received) ], inr tt))
  /\ (Js.opt_get event "type" = JStr "customer.subscription.deleted" ->
      stripe_webhook w env req
      = ([ Console_ ConsoleLog [ LogVal (JStr "Subscription cancelled") ];
           Respond 200 (BodyJson received) ], inr tt))
  /\ (Js.opt_get event "type" = JStr "checkout.session.completed" ->
      Js.nullish (Js.opt_get event "data") = false ->
      stripe_webhook w env req
      = ([ Console_ ConsoleLog
             [ LogVal (JStr "Payment successful:");
               LogVal (Js.opt_get (Js.opt_get event "data") "object") ];
           Respond 200 (BodyJson received) ], inr tt)).
Proof.
  intros Hok. rewrite (stripe_webhook_verified w env req event Hok).
  unfold switch_event_type.
  destruct event; cbn [Js.opt_get]; repeat split; try discriminate.
  - intros Hty. cbn [Js.get]. rewrite Hty. reflexivity.
  - intros Hty. cbn [Js.get]. rewrite Hty. reflexivity.
  - intros Hty Hdata. cbn [Js.get]. rewrite Hty.
    rewrite bind_lift_inr. cbn [Js.strict_eq_str String.eqb Ascii.eqb Bool.eqb].
    rewrite bind_lift_inr, (get_of_present _ "object" Hdata). reflexivity.
Qed.

Lemma webhook_known_types_acknowledged_witness :
  let event := JObj [ ("type", JStr "checkout.session.completed");
                      ("data", JObj [ ("object", JObj [ ("id", JStr "cs_1") ]) ]) ] in
  let w := Sample.world (inl Sample.network_down) (inl Sample.network_down)
                        (inr event) in
  constructEvent w (body Sample.webhook_request)
                 (stripe_signature Sample.webhook_request)
                 (STRIPE_WEBHOOK_SECRET Sample.env) = inr event
  /\ stripe_webhook w Sample.env Sample.webhook_request
     = ([ Console_ ConsoleLog [ LogVal (JStr "Payment successful:");
                                LogVal (JObj [ ("id", JStr "cs_1") ]) ];
          Respond 200 (BodyJson received) ], inr tt).
Proof.
  intros event w. split; [reflexivity|].
  apply (proj2 (proj2 (webhook_known_types_acknowledged w Sample.env
                         Sample.webhook_request event eq_refl)));
    reflexivity.
Defined.

(** ** The two kinds of 500 *)

(** Replaying a run in a hypothesis with the answers known from the
    context. *)
Ltac reduce_all_in H :=
  cbv beta iota delta [bind emit lift ret throw try_catch app trace outcome fst snd
                       call_replace_plus internal_error console_error
                       console_log res_json res_send body_field await_fetch
                       await_checkout_create] in H.

Ltac replay_in H :=
  reduce_all_in H;
  repeat (match goal with
          | E : ?x = _ |- _ =>
              match type of H with context [x] => rewrite E in H end
          end; reduce_all_in H).

(** In a leaf of the case analysis: no call of the run was answered
    with a status outside 200..299 and a text that was read. *)
Ltac no_details handler :=
  intros (q' & r' & d' & Hq' & Hf' & Hok' & Ht');
  unfold handler in Hq'; replay_in Hq'; in_leaf Hq'; try discriminate Hq';
  injection Hq' as <-;
  repeat match goal with
    | H : negb _ = false |- _ => apply negb_false_iff in H
    | H : negb _ = true |- _ => apply negb_true_iff in H
    end;
  congruence.

(** The console line of the [catch] block is the first or the second
    effect of the run. *)
Ltac logged_in_run :=
  first [ left; reflexivity | right; left; reflexivity ].

(** X21.  A 500 of [/api/voice-call] or [/api/chat] is of one of two
    kinds, told apart by its fields.  It carries [details] exactly when
    the call the handler made to Retell was answered with a status outside
    200..299 and its text was read, and then [details] is that text.
    Every other 500 is an "Internal server error" whose [message] is the
    message of the error that the [catch] block logged, and it carries no
    [details]. *)
Theorem relay_500_kinds (w : World) (env : ProcessEnv) (req : Request) (v : JsVal) :
  (In (Respond 500 (BodyJson v)) (trace (voice_call w env req)) ->
   (exists q r d,
       In (Fetch q) (trace (voice_call w env req))
       /\ fetch w q = inr r /\ ok r = false /\ text r = inr d
       /\ v = JObj [ ("error", JStr "Failed to initiate call with Retell AI");
                     ("details", JStr d) ])
   \/ (exists e,
          In (Console_ ConsoleError [ LogVal (JStr "Voice call error:"); LogErr e ])
             (trace (voice_call w env req))
          /\ v = JObj [ ("error", JStr "Internal server error");
                        ("message", JStr (message e)) ]
          /\ ~ (exists q r d,
                   In (Fetch q) (trace (voice_call w env req))
                   /\ fetch w q = inr r /\ ok r = false /\ text r = inr d)))
  /\ (In (Respond 500 (BodyJson v)) (trace (chat w env req)) ->
      (exists q r d,
          In (Fetch q) (trace (chat w env req))
          /\ fetch w q = inr r /\ ok r = false /\ text r = inr d
          /\ v = JObj [ ("error", JStr "Failed to get response from Savana");
                        ("details", JStr d) ])
      \/ (exists e,
             In (Console_ ConsoleError [ LogVal (JStr "Chat error:"); LogErr e ])
                (trace (chat w env req))
             /\ v = JObj [ ("error", JStr "Internal server error");
                           ("message", JStr (message e)) ]
             /\ ~ (exists q r d,
                      In (Fetch q) (trace (chat w env req))
                      /\ fetch w q = inr r /\ ok r = false /\ text r = inr d))).
Proof.
  split; intros Hin.
  - pose proof Hin as Hrun. unfold voice_call, body_field, await_fetch in Hrun.
    split_run_in Hrun; in_leaf Hrun; try discriminate Hrun.
    all: injection Hrun as <-.
    all: first
      [ left;
        match goal with H : fetch _ ?q = inr ?r, Ht : text ?r = inr ?d |- _ =>
          exists q, r, d end;
        split; [unfold voice_call; replay; left; reflexivity|];
        split; [assumption|]; split; [now apply negb_true_iff|];
        split; [assumption | reflexivity]
      | right;
        first [ eexists; split; [unfold voice_call; replay; logged_in_run|];
                split; [reflexivity|]
              | eexists (TypeError _); split; [unfold voice_call; replay; logged_in_run|];
                split; [reflexivity|] ];
        no_details voice_call ].
  - pose proof Hin as Hrun. unfold chat, body_field, await_fetch in Hrun.
    split_run_in Hrun; in_leaf Hrun; try discriminate Hrun.
    all: injection Hrun as <-.
    all: first
      [ left;
        match goal with H : fetch _ ?q = inr ?r, Ht : text ?r = inr ?d |- _ =>
          exists q, r, d end;
        split; [unfold chat; replay; left; reflexivity|];
        split; [assumption|]; split; [now apply negb_true_iff|];
        split; [assumption | reflexivity]
      | right;
        first [ eexists; split; [unfold chat; replay; logged_in_run|];
                split; [reflexivity|]
              | eexists (TypeError _); split; [unfold chat; replay; logged_in_run|];
                split; [reflexivity|] ];
        no_details chat ].
Qed.

(** ** The signing secret and what the webhook handler writes *)









(** X22.  The signing secret reaches nothing but the verifier.  Take
    two environments that differ at most in [STRIPE_WEBHOOK_SECRET]:
    whenever [constructEvent] gives the same verdict under both secrets,
    the webhook handler's run is the same, console lines and response;
    the other three handlers do not read the secret at all, and their
    runs are the same whatever it is. *)
Theorem webhook_secret_only_feeds_verifier (w : World) (env env' : ProcessEnv)
  (req : Request) :
  same_but_webhook_secret env env' ->
  (constructEvent w (body req) (stripe_signature req) (STRIPE_WEBHOOK_SECRET env)
   = constructEvent w (body req) (stripe_signature req) (STRIPE_WEBHOOK_SECRET env') ->
   stripe_webhook w env req = stripe_webhook w env' req)
  /\ voice_call w env req = voice_call w env' req
  /\ chat w env req = chat w env' req
  /\ create_checkout_session w env req = create_checkout_session w env' req.
Proof.
  intros Hsame. split.
  - intros Hverdict. unfold stripe_webhook. now rewrite Hverdict.
  - destruct env as [k p a l s], env' as [k' p' a' l' s'].
    destruct Hsame as (Hk & Hp & Ha & Hl). cbn in Hk, Hp, Ha, Hl. subst.
    repeat split.
Qed.

Lemma webhook_secret_only_feeds_verifier_witness :
  let w := Sample.checking_world Sample.unknown_event in
  same_but_webhook_secret Sample.env_other_secret Sample.env_third_secret
  /\ STRIPE_WEBHOOK_SECRET Sample.env_other_secret
     <> STRIPE_WEBHOOK_SECRET Sample.env_third_secret
  /\ stripe_webhook w Sample.env_other_secret Sample.webhook_request
     = stripe_webhook w Sample.env_third_secret Sample.webhook_request.
Proof.
  intros w.
  assert (Hsame : same_but_webhook_secret Sample.env_other_secret Sample.env_third_secret)
    by (repeat split).
  split; [exact Hsame|]. split; [discriminate|].
  apply (proj1 (webhook_secret_only_feeds_verifier w Sample.env_other_secret
                  Sample.env_third_secret Sample.webhook_request Hsame)).
  reflexivity.
Defined.

(** ** The reply of [/api/chat] *)

Lemma first_choice_content_inr (chatData content : JsVal) :
  first_choice_content chatData = inr content ->
  content = Js.opt_get (Js.opt_get (Js.opt_index0 (Js.opt_get chatData "choices"))
                                   "message") "content".
Proof.
  destruct chatData; cbn; intros H; try discriminate H; now injection H as <-.
Qed.

(** What [content || fallback] is, for a fallback text that is not
    empty. *)
Lemma reply_facts (content : JsVal) (fallback : string) :
  fallback <> "" ->
  let reply := if Js.truthy content then content else JStr fallback in
  Js.truthy reply = true
  /\ (forall s, reply = JStr s -> s <> "")
  /\ (Js.nullish content = true \/ (exists s, content = JStr s) ->
      exists s, reply = JStr s).
Proof.
  intros Hfb reply. unfold reply. destruct (Js.truthy content) eqn:Hc.
  - split; [exact Hc|]. split.
    + intros s Hs. rewrite Hs in Hc. now apply truthy_str.
    + intros [Hn|[s Hs]].
      * destruct content; discriminate.
      * now exists s.
  - split; [now apply truthy_str|]. split.
    + intros s [= <-]. exact Hfb.
    + intros _. now exists fallback.
Qed.

(** C10, as the code has it.  Every HTTP 200 of [/api/chat] follows the
    call the handler made to Retell, answered 2xx with JSON that was read,
    and the [response] it hands to [res.json] is [content || fallback],
    where [content] is [choices?.[0]?.message?.content] of that JSON: the
    content itself when it is truthy, whatever its JSON type, and the
    fixed apology text otherwise.  So the value is truthy; when it is a
    string it is not empty; and it is a string whenever the content is a
    string or is [undefined] or [null]. *)
Theorem chat_response_is_content_or_fallback (w : World) (env : ProcessEnv)
  (req : Request) (v : JsVal) :
  In (Respond 200 (BodyJson v)) (trace (chat w env req)) ->
  exists q r chatData session_id,
    In (Fetch q) (trace (chat w env req))
    /\ fetch w q = inr r /\ ok r = true /\ json r = inr chatData
    /\ let content :=
         Js.opt_get (Js.opt_get (Js.opt_index0 (Js.opt_get chatData "choices"))
                                "message") "content" in
       let reply :=
         if Js.truthy content then content
         else JStr "I apologize, but I couldn't process your message. Please try again." in
       v = JObj [ ("success", JBool true); ("response", reply);
                  ("sessionId", session_id) ]
       /\ Js.truthy reply = true
       /\ (forall s, reply = JStr s -> s <> "")
       /\ (Js.nullish content = true \/ (exists s, content = JStr s) ->
           exists s, reply = JStr s).
Proof.
  intros Hin. pose proof Hin as Hrun.
  unfold chat, body_field, await_fetch in Hrun.
  split_run_in Hrun; in_leaf Hrun; try discriminate Hrun.
  all: injection Hrun as <-;
    match goal with
    | H : fetch _ ?q = inr ?r |- _ =>
        assert (Hcall : In (Fetch q) (trace (chat w env req)))
          by (unfold chat; replay; left; reflexivity);
        exists q, r
    end;
    do 2 eexists; split; [exact Hcall|];
    split; [eassumption|]; split; [now apply negb_false_iff|];
    split; [eassumption|]; cbv zeta; split;
    [ match goal with
      | H : first_choice_content _ = inr _ |- _ =>
          rewrite (first_choice_content_inr _ _ H); reflexivity
      end
    | apply reply_facts; discriminate ].
Qed.

Lemma chat_response_is_content_or_fallback_witness :
  let w := Sample.world (inr Sample.completion_with_text) (inl Sample.network_down)
                        (inl Sample.bad_signature) in
  let req := Sample.json_request Sample.chat_body in
  let v := JObj [ ("success", JBool true); ("response", JStr "Hello");
                  ("sessionId", JStr "s1") ] in
  In (Respond 200 (BodyJson v)) (trace (chat w Sample.env req))
  /\ exists q, In (Fetch q) (trace (chat w Sample.env req))
               /\ fetch w q = inr Sample.completion_with_text.
Proof.
  intros w req v.
  assert (Hin : In (Respond 200 (BodyJson v)) (trace (chat w Sample.env req)))
    by (right; left; reflexivity).
  split; [exact Hin|].
  destruct (chat_response_is_content_or_fallback w Sample.env req v Hin)
    as (q & r & chatData & session_id & Hfetch & Hr & _).
  exists q. split; [exact Hfetch | reflexivity].
Defined.
